(** * scripts/hdbscan-python.py: the HDBSCAN command-line adapter

    A shallow embedding of [main] of [scripts/hdbscan-python.py].  The script
    parses four options, imports numpy and hdbscan, loads one JSON document
    from standard input, L2-normalises the embedding rows when the metric is
    "euclidean", calls the clustering library and prints one JSON record.

    The script's own control flow, its option handling, the prints and the
    arithmetic on the label array are embedded as they are written.  What it
    consumes from its collaborators (the interpreter's import machinery,
    [json.load], numpy's float32 arithmetic, [HDBSCAN.fit_predict]) is taken
    as an interface: a [Numpy] structure for the scalar operations and a
    [World] record for the answers of the calls. *)

From Stdlib Require Import ZArith List String Ascii Bool Lia DecimalString.
From Stdlib Require Import Floats.
Import ListNotations.

Set Warnings "-register-all,-notation-for-abbreviation,-inexact-float".

Local Open Scope string_scope.
Local Open Scope Z_scope.

(** ** Python values, exceptions and results *)

(** The exception classes the script can meet.  [SystemExit] is what
    [sys.exit] raises; [OtherError] stands for any class a library raises
    that the script never names. *)
Inductive exn : Type :=
| ImportError (msg : string)
| JSONDecodeError
| KeyError (key : string)
| TypeError
| ValueError
| AxisError
| OtherError (name : string)
| SystemExit (code : Z).

(** A call returns a value or raises. *)
Inductive result (A : Type) : Type :=
| Ok (a : A)
| Raise (e : exn).
Arguments Ok {A} a.
Arguments Raise {A} e.

(** What [json.load] builds: [None], [bool], [int], [float], [str], [list]
    and [dict] (a dict in insertion order, its keys distinct).  A [str] is
    held as the bytes of its UTF-8 encoding. *)
Inductive json (pyfloat : Type) : Type :=
| JNull
| JBool (b : bool)
| JInt (z : Z)
| JFloat (x : pyfloat)
| JStr (s : string)
| JArr (items : list (json pyfloat))
| JObj (fields : list (string * json pyfloat)).
Arguments JNull {pyfloat}.
Arguments JBool {pyfloat} b.
Arguments JInt {pyfloat} z.
Arguments JFloat {pyfloat} x.
Arguments JStr {pyfloat} s.
Arguments JArr {pyfloat} items.
Arguments JObj {pyfloat} fields.

(** ** The numeric collaborator

    [f32] is numpy's float32 and [pyfloat] Python's float.  The operations are
    numpy's own; the script only composes them.  [f32_1e_8] is the literal
    [1e-8] at float32, [row_norm] is [np.linalg.norm] of one row, and
    [float32_of] is the cast of one JSON leaf by [np.array(.., dtype=float32)]
    (it raises on a leaf that is no number).  Arrays of three and more
    dimensions stay opaque ([deep]): no row of the input record has one.  The
    two laws are facts of IEEE arithmetic on the literal. *)
Class Numpy (pyfloat : Type) : Type := {
  f32 : Type;
  f32_zero : f32;
  f32_1e_8 : f32;
  f32_div : f32 -> f32 -> f32;
  f32_ltb : f32 -> f32 -> bool;
  row_norm : list f32 -> f32;
  float32_of : json pyfloat -> result f32;
  deep : Type;
  np_array_deep : list (json pyfloat) -> result deep;
  normalize_deep : deep -> deep;
  deep_len : deep -> Z;
  f32_floor_irrefl : f32_ltb f32_1e_8 f32_1e_8 = false;
  f32_zero_lt_floor : f32_ltb f32_zero f32_1e_8 = true
}.

(** ** Options and the clusterer's configuration *)

(** The options given on the command line, each converted as its
    [add_argument] asks ([type=int], [type=str]); [None] for an absent flag.
    A command line that [argparse] refuses ends the process before [main]
    does anything else and is no value of this type. *)
Record CommandLine : Type := {
  opt_min_cluster_size : option Z;
  opt_min_samples : option Z;
  opt_metric : option string;
  opt_core_dist_n_jobs : option Z
}.

(** The namespace [parse_args] returns. *)
Record Args : Type := {
  min_cluster_size : Z;
  min_samples : option Z;
  metric : string;
  core_dist_n_jobs : Z
}.

Definition with_default {A : Type} (given : option A) (default : A) : A :=
  match given with
  | Some v => v
  | None => default
  end.

(** Lines 17-24: the four options and their defaults. *)
Definition parse_args (cli : CommandLine) : Args :=
  {| min_cluster_size := with_default (opt_min_cluster_size cli) 4;
     min_samples := opt_min_samples cli;
     metric := with_default (opt_metric cli) "euclidean";
     core_dist_n_jobs := with_default (opt_core_dist_n_jobs cli) (-1) |}.

(** The keyword arguments of [hdbscan.HDBSCAN(...)] (lines 55-60). *)
Record HDBSCAN : Type := {
  hp_min_cluster_size : Z;
  hp_min_samples : Z;
  hp_metric : string;
  hp_core_dist_n_jobs : Z
}.

Section Script.
Context {pyfloat : Type} {np : Numpy pyfloat}.

Notation json := (json pyfloat).

(** A numpy float32 array, by its number of dimensions. *)
Inductive ndarray : Type :=
| Arr0 (x : f32)
| Arr1 (xs : list f32)
| Arr2 (rows : list (list f32))
| ArrN (a : deep).

(** ** Output: a writer over the process's events, with exceptions *)

(** What the process does that can be observed: a document printed on
    standard output by [print(json.dumps(d))], a line printed on standard
    error, and the call of the clustering routine with its argument. *)
Inductive event : Type :=
| Stdout (doc : json)
| Stderr (line : string)
| Fit (clusterer : HDBSCAN) (X : ndarray).

(** A computation yields the events it emitted, in order, and its result. *)
Definition M (A : Type) : Type := (list event * result A)%type.

Definition ret {A : Type} (a : A) : M A := ([], Ok a).

Definition raise {A : Type} (e : exn) : M A := ([], Raise e).

Definition bind {A B : Type} (m : M A) (k : A -> M B) : M B :=
  match m with
  | (t, Ok a) => let (t', r) := k a in ((t ++ t')%list, r)
  | (t, Raise e) => (t, Raise e)
  end.

Definition lift {A : Type} (r : result A) : M A := ([], r).

Definition emit (e : event) : M unit := ([e], Ok tt).

(** [try: body except ImportError as e: handler(str(e))]. *)
Definition try_except_ImportError {A : Type} (body : M A) (handler : string -> M A) : M A :=
  match body with
  | (t, Raise (ImportError msg)) => let (t', r) := handler msg in ((t ++ t')%list, r)
  | other => other
  end.

Notation "x <- m ;; k" := (bind m (fun x => k))
  (at level 61, m at next level, right associativity).
Notation "m ;;; k" := (bind m (fun _ => k))
  (at level 61, right associativity).

(** ** Library operations on values *)

Fixpoint result_map {A B : Type} (f : A -> result B) (l : list A) : result (list B) :=
  match l with
  | [] => Ok []
  | a :: l' =>
      match f a with
      | Raise e => Raise e
      | Ok b =>
          match result_map f l' with
          | Raise e => Raise e
          | Ok bs => Ok (b :: bs)
          end
      end
  end.

Fixpoint lookup_field (key : string) (fields : list (string * json)) : option json :=
  match fields with
  | [] => None
  | (k, v) :: rest => if String.eqb k key then Some v else lookup_field key rest
  end.

(** [data[key]] for a string key. *)
Definition subscript (data : json) (key : string) : result json :=
  match data with
  | JObj fields =>
      match lookup_field key fields with
      | Some v => Ok v
      | None => Raise (KeyError key)
      end
  | _ => Raise TypeError
  end.

(** A continuation byte of UTF-8 (10xxxxxx): every other byte starts a
    character. *)
Definition is_continuation (a : ascii) : bool :=
  (Nat.leb 128 (nat_of_ascii a) && Nat.ltb (nat_of_ascii a) 192)%bool.

(** The number of characters (code points) of a text held in UTF-8. *)
Fixpoint utf8_length (s : string) : nat :=
  match s with
  | EmptyString => O
  | String a s' => ((if is_continuation a then 0 else 1) + utf8_length s')%nat
  end.

(** [len(v)]: the entries of a list, the keys of a dict, the characters of
    a string; the other values have no length. *)
Definition py_len (v : json) : result Z :=
  match v with
  | JArr items => Ok (Z.of_nat (List.length items))
  | JObj fields => Ok (Z.of_nat (List.length fields))
  | JStr s => Ok (Z.of_nat (utf8_length s))
  | _ => Raise TypeError
  end.

(** [str(n)] of an integer, as an f-string formats it. *)
Definition str_of_int (n : Z) : string := NilZero.string_of_int (Z.to_int n).

Definition is_arr (j : json) : bool :=
  match j with JArr _ => true | _ => false end.

Definition is_row (j : json) : bool :=
  match j with JArr items => forallb (fun x => negb (is_arr x)) items | _ => false end.

Definition row_items (j : json) : list json :=
  match j with JArr items => items | _ => [] end.

Definition same_lengths (rows : list json) : bool :=
  match rows with
  | [] => true
  | r :: rest =>
      forallb (fun r' => Nat.eqb (List.length (row_items r')) (List.length (row_items r))) rest
  end.

Definition result_fmap {A B : Type} (f : A -> B) (r : result A) : result B :=
  match r with Ok a => Ok (f a) | Raise e => Raise e end.

(** [np.array(v, dtype=np.float32)]: a leaf gives a 0-d array, a list of
    leaves a vector (the empty list the empty vector of shape (0,)), a list
    of equally long lists of leaves a matrix; lists of unequal lengths, or
    leaves beside lists, are refused with [ValueError]. *)
Definition np_array (v : json) : result ndarray :=
  match v with
  | JArr items =>
      if forallb (fun x => negb (is_arr x)) items then
        result_fmap Arr1 (result_map float32_of items)
      else if forallb is_row items then
        if same_lengths items then
          result_fmap Arr2 (result_map (fun r => result_map float32_of (row_items r)) items)
        else Raise ValueError
      else if forallb is_arr items then
        result_fmap ArrN (np_array_deep items)
      else Raise ValueError
  | leaf => result_fmap Arr0 (float32_of leaf)
  end.

(** [len(X)] of an array: its first dimension. *)
Definition nrows (X : ndarray) : result Z :=
  match X with
  | Arr0 _ => Raise TypeError
  | Arr1 xs => Ok (Z.of_nat (List.length xs))
  | Arr2 rows => Ok (Z.of_nat (List.length rows))
  | ArrN a => Ok (deep_len a)
  end.

(** [np.clip(x, lo, None)] on one entry: numpy computes [maximum(x, lo)],
    which keeps [x] unless [x < lo] (a NaN is kept). *)
Definition np_clip_lo (x lo : f32) : f32 :=
  if f32_ltb x lo then lo else x.

(** [np.linalg.norm(X, axis=1, keepdims=True)] on a matrix: one norm per
    row, as a column. *)
Definition linalg_norm_axis1 (rows : list (list f32)) : list f32 :=
  map row_norm rows.

(** [X / c] for a matrix and a column of the same height: entry (i, j) is
    divided by entry i of the column. *)
Fixpoint divide_by_column (rows : list (list f32)) (col : list f32) : list (list f32) :=
  match rows, col with
  | row :: rows', d :: col' => map (fun x => f32_div x d) row :: divide_by_column rows' col'
  | _, _ => []
  end.

(** Lines 45-46.  Axis 1 does not exist below two dimensions. *)
Definition l2_normalize (X : ndarray) : result ndarray :=
  match X with
  | Arr0 _ => Raise AxisError
  | Arr1 _ => Raise AxisError
  | Arr2 rows =>
      let norms := linalg_norm_axis1 rows in
      Ok (Arr2 (divide_by_column rows (map (fun n => np_clip_lo n f32_1e_8) norms)))
  | ArrN a => Ok (ArrN (normalize_deep a))
  end.

(** The label array is a numpy array of 64-bit integers, and so is the
    scalar [labels.max()]: the sum [labels.max() + 1] is taken in int64 and
    wraps around. *)
Definition wrap_int64 (z : Z) : Z := (z + 2 ^ 63) mod 2 ^ 64 - 2 ^ 63.

Definition int64_add (a b : Z) : Z := wrap_int64 (a + b).

(** [a.max()] of an integer array: undefined on the empty array. *)
Definition array_max (labels : list Z) : result Z :=
  match labels with
  | [] => Raise ValueError
  | l :: rest => Ok (fold_left Z.max rest l)
  end.

(** [(labels == v).sum()]: the sum is at most the number of entries, which
    an array keeps below 2^63. *)
Definition count_eq (v : Z) (labels : list Z) : Z :=
  fold_left Z.add (map (fun l => if l =? v then 1 else 0) labels) 0.

(** [a or b] on an optional integer: [a] is falsy when it is [None] or 0. *)
Definition py_or (a : option Z) (b : Z) : Z :=
  match a with
  | None => b
  | Some v => if v =? 0 then b else v
  end.

(** ** The world: what the collaborators answer

    The exception an [import] raises, if any; the value [json.load(sys.stdin)]
    returns, or the exception it raises; and [fit_predict] of the clusterer
    built with the given arguments.  The labels are integers as
    [labels.tolist()] lists them. *)

Record World : Type := {
  import_numpy : option exn;
  import_hdbscan : option exn;
  stdin_json : result json;
  fit_predict : HDBSCAN -> ndarray -> result (list Z)
}.

Definition import_module (outcome : option exn) : M unit :=
  match outcome with
  | None => ret tt
  | Some e => raise e
  end.

Definition print_stderr (line : string) : M unit := emit (Stderr line).

Definition print_json (doc : json) : M unit := emit (Stdout doc).

Definition sys_exit {A : Type} (code : Z) : M A := raise (SystemExit code).

Definition call_fit_predict (w : World) (c : HDBSCAN) (X : ndarray) : M (list Z) :=
  emit (Fit c X) ;;; lift (fit_predict w c X).

(** ** [main] (lines 16-75) *)

Definition main (cli : CommandLine) (w : World) : M unit :=
  let args := parse_args cli in
  let min_samples := py_or (min_samples args) (min_cluster_size args) in
  try_except_ImportError
    (import_module (import_numpy w) ;;; import_module (import_hdbscan w))
    (fun e =>
       print_json (JObj [("error",
         JStr ("Missing dependency: " ++ e ++ ". Install with: pip install hdbscan numpy"))]) ;;;
       sys_exit 1) ;;;
  data <- lift (stdin_json w) ;;
  ids <- lift (subscript data "ids") ;;
  raw <- lift (subscript data "embeddings") ;;
  embeddings <- lift (np_array raw) ;;
  embeddings <- (if String.eqb (metric args) "euclidean"
                 then lift (l2_normalize embeddings)
                 else ret embeddings) ;;
  n <- lift (py_len ids) ;;
  print_stderr ("Clustering " ++ str_of_int n ++ " vectors with HDBSCAN...") ;;;
  print_stderr ("  min_cluster_size=" ++ str_of_int (min_cluster_size args)) ;;;
  print_stderr ("  min_samples=" ++ str_of_int min_samples) ;;;
  print_stderr ("  metric=" ++ metric args) ;;;
  print_stderr ("  core_dist_n_jobs=" ++ str_of_int (core_dist_n_jobs args)) ;;;
  let clusterer := {| hp_min_cluster_size := min_cluster_size args;
                      hp_min_samples := min_samples;
                      hp_metric := metric args;
                      hp_core_dist_n_jobs := core_dist_n_jobs args |} in
  labels <- call_fit_predict w clusterer embeddings ;;
  let labels_list := JArr (map JInt labels) in
  top <- lift (array_max labels) ;;
  n_clusters <- (if top >=? 0
                 then top' <- lift (array_max labels) ;; ret (int64_add top' 1)
                 else ret 0) ;;
  let n_noise := count_eq (-1) labels in
  let result := JObj [("labels", labels_list); ("ids", ids);
                      ("n_clusters", JInt n_clusters); ("n_noise", JInt n_noise)] in
  print_stderr ("Found " ++ str_of_int n_clusters ++ " clusters, "
                ++ str_of_int n_noise ++ " noise points") ;;;
  print_json result.

(** ** Observations on a run *)

(** The exit status of the process: 0 when [main] returns, the argument of
    [sys.exit], and 1 when an exception reaches the interpreter. *)
Definition exit_code (r : result unit) : Z :=
  match r with
  | Ok _ => 0
  | Raise (SystemExit code) => code
  | Raise _ => 1
  end.

(** The documents [main] printed on standard output, in order. *)
Fixpoint stdout_of (t : list event) : list json :=
  match t with
  | [] => []
  | Stdout d :: t' => d :: stdout_of t'
  | _ :: t' => stdout_of t'
  end.

(** The lines [main] itself printed on standard error, in order: its
    progress lines.  What a library or the interpreter writes on that stream
    of its own accord (a warning of numpy, the traceback of an exception) is
    no event of [main] and is not among them. *)
Fixpoint stderr_of (t : list event) : list string :=
  match t with
  | [] => []
  | Stderr l :: t' => l :: stderr_of t'
  | _ :: t' => stderr_of t'
  end.

(** The calls of the clustering routine, in order. *)
Fixpoint fits_of (t : list event) : list (HDBSCAN * ndarray) :=
  match t with
  | [] => []
  | Fit c X :: t' => (c, X) :: fits_of t'
  | _ :: t' => fits_of t'
  end.

(** The configuration [main] builds for the clusterer (lines 55-60). *)
Definition config_of (args : Args) : HDBSCAN :=
  {| hp_min_cluster_size := min_cluster_size args;
     hp_min_samples := py_or (min_samples args) (min_cluster_size args);
     hp_metric := metric args;
     hp_core_dist_n_jobs := core_dist_n_jobs args |}.

(** The five lines printed before the clusterer is called (lines 48-52). *)
Definition prelude (args : Args) (n : Z) : list event :=
  [Stderr ("Clustering " ++ str_of_int n ++ " vectors with HDBSCAN...");
   Stderr ("  min_cluster_size=" ++ str_of_int (min_cluster_size args));
   Stderr ("  min_samples=" ++ str_of_int (py_or (min_samples args) (min_cluster_size args)));
   Stderr ("  metric=" ++ metric args);
   Stderr ("  core_dist_n_jobs=" ++ str_of_int (core_dist_n_jobs args))].

(** The value [main] binds to [n_clusters] once [labels.max()] is known. *)
Definition n_clusters_of (top : Z) : Z := if top >=? 0 then int64_add top 1 else 0.

(** The record of lines 65-70. *)
Definition output_record (ids : json) (labels : list Z) (top : Z) : json :=
  JObj [("labels", JArr (map JInt labels)); ("ids", ids);
        ("n_clusters", JInt (n_clusters_of top));
        ("n_noise", JInt (count_eq (-1) labels))].

(** The line printed after the clusterer returned (lines 72-73). *)
Definition summary_line (labels : list Z) (top : Z) : string :=
  "Found " ++ str_of_int (n_clusters_of top) ++ " clusters, "
  ++ str_of_int (count_eq (-1) labels) ++ " noise points".

(** The matrix handed to the clusterer for the array [E] read from input. *)
Definition prepared (args : Args) (E X : ndarray) : Prop :=
  if String.eqb (metric args) "euclidean" then l2_normalize E = Ok X else X = E.

(** The part of [main] from the echo of the configuration on (lines 48-75). *)
Definition cluster_and_report (args : Args) (w : World) (ids : json) (n : Z) (X : ndarray)
  : M unit :=
  match fit_predict w (config_of args) X with
  | Raise e => ((prelude args n ++ [Fit (config_of args) X])%list, Raise e)
  | Ok labels =>
      match array_max labels with
      | Raise e => ((prelude args n ++ [Fit (config_of args) X])%list, Raise e)
      | Ok top =>
          ((prelude args n ++
            [Fit (config_of args) X; Stderr (summary_line labels top);
             Stdout (output_record ids labels top)])%list, Ok tt)
      end
  end.

(** The part of [main] from [json.load] to the normalisation (lines 39-46). *)
Definition read_and_prepare (args : Args) (w : World) : result (json * Z * ndarray) :=
  match stdin_json w with
  | Raise e => Raise e
  | Ok data =>
      match subscript data "ids" with
      | Raise e => Raise e
      | Ok ids =>
          match subscript data "embeddings" with
          | Raise e => Raise e
          | Ok raw =>
              match np_array raw with
              | Raise e => Raise e
              | Ok E =>
                  match (if String.eqb (metric args) "euclidean"
                         then l2_normalize E else Ok E) with
                  | Raise e => Raise e
                  | Ok X =>
                      match py_len ids with
                      | Raise e => Raise e
                      | Ok n => Ok (ids, n, X)
                      end
                  end
              end
          end
      end
  end.

(** The message of the [ImportError] the [try] block catches, if any: from
    [import numpy], or from [import hdbscan] once numpy is imported. *)
Definition missing_dependency (w : World) : option string :=
  match import_numpy w with
  | Some (ImportError msg) => Some msg
  | Some _ => None
  | None =>
      match import_hdbscan w with
      | Some (ImportError msg) => Some msg
      | _ => None
      end
  end.

(** An exception of the imports that the [try] block lets through. *)
Definition import_fault (w : World) : option exn :=
  match import_numpy w with
  | Some (ImportError _) => None
  | Some e => Some e
  | None =>
      match import_hdbscan w with
      | Some (ImportError _) => None
      | other => other
      end
  end.

Definition dependency_error (msg : string) : json :=
  JObj [("error",
         JStr ("Missing dependency: " ++ msg ++ ". Install with: pip install hdbscan numpy"))].

(** ** Notions of the specification *)

(** [m] is the maximum of the labels: the [max(labels)] of the specification. *)
Definition is_max_of (m : Z) (labels : list Z) : Prop :=
  In m labels /\ forall l, In l labels -> l <= m.

(** Importing numpy or hdbscan raises [ImportError] with the message [msg]:
    [import numpy] raises it, or it succeeds and [import hdbscan] raises it.
    An import that fails with an exception of another class is not meant. *)
Definition import_raises_ImportError (w : World) (msg : string) : Prop :=
  import_numpy w = Some (ImportError msg) \/
  (import_numpy w = None /\ import_hdbscan w = Some (ImportError msg)).

(** The maximum of two float32 values, by the order of [f32_ltb]. *)
Definition f32_max (a b : f32) : f32 := if f32_ltb a b then b else a.

(** What the specification divides a row by: the maximum of its Euclidean
    norm and the floor 1e-8. *)
Definition row_divisor (row : list f32) : f32 := f32_max (row_norm row) f32_1e_8.

(** The input record: [ids] and [embeddings] are lists of the same length,
    and the rows are lists of leaves that share one length. *)
Definition well_formed_input (data : json) (ids rows : list json) : Prop :=
  subscript data "ids" = Ok (JArr ids) /\
  subscript data "embeddings" = Ok (JArr rows) /\
  List.length ids = List.length rows /\
  forallb is_row rows = true /\
  same_lengths rows = true.

(** The clustering routine returns one label per row of its argument. *)
Definition one_label_per_row (w : World) : Prop :=
  forall c X labels,
    fit_predict w c X = Ok labels -> nrows X = Ok (Z.of_nat (List.length labels)).

(** The same collaborators with another answer of [json.load(sys.stdin)]. *)
Definition with_stdin (w : World) (doc : result json) : World :=
  {| import_numpy := import_numpy w;
     import_hdbscan := import_hdbscan w;
     stdin_json := doc;
     fit_predict := fit_predict w |}.

(** The shape of a matrix: the length of each of its rows. *)
Definition row_lengths (rows : list (list f32)) : list nat :=
  map (@List.length f32) rows.

End Script.

(** ** A numeric structure to run the model on

    Binary64 arithmetic of the kernel stands in for numpy's float32: the
    theorems below hold for every [Numpy] structure, and this one lets the
    model be evaluated on examples. *)
Module Binary64.

Definition float_of_Z (z : Z) : float :=
  match z with
  | Z0 => 0%float
  | Zpos _ => PrimFloat.of_uint63 (Uint63.of_Z z)
  | Zneg _ => PrimFloat.opp (PrimFloat.of_uint63 (Uint63.of_Z (- z)))
  end.

Definition cast (j : json float) : result float :=
  match j with
  | JNull => Ok PrimFloat.nan
  | JBool b => Ok (if b then 1%float else 0%float)
  | JInt z => Ok (float_of_Z z)
  | JFloat x => Ok x
  | JStr _ => Raise ValueError
  | JArr _ => Raise ValueError
  | JObj _ => Raise TypeError
  end.

Definition norm2 (row : list float) : float :=
  PrimFloat.sqrt (fold_left (fun acc x => PrimFloat.add acc (PrimFloat.mul x x)) row 0%float).

#[export] Instance numpy : Numpy float := {|
  f32 := float;
  f32_zero := 0%float;
  f32_1e_8 := 1e-8%float;
  f32_div := PrimFloat.div;
  f32_ltb := PrimFloat.ltb;
  row_norm := norm2;
  float32_of := cast;
  deep := unit;
  np_array_deep := fun _ => Raise ValueError;
  normalize_deep := fun a => a;
  deep_len := fun _ => 0;
  f32_floor_irrefl := eq_refl;
  f32_zero_lt_floor := eq_refl
|}.

(** A clusterer for examples: rows whose first coordinate exceeds one half
    form cluster 0, the other rows cluster 1, an empty row is noise. *)
Definition halves (c : HDBSCAN) (X : ndarray) : result (list Z) :=
  match X with
  | Arr2 rows =>
      Ok (map (fun row =>
                 match row with
                 | x :: _ => if PrimFloat.ltb 0.5%float x then 0 else 1
                 | [] => -1
                 end) rows)
  | Arr1 [] => Ok []
  | _ => Raise ValueError
  end.

(** No flag given: every option takes its default. *)
Definition no_flags : CommandLine :=
  {| opt_min_cluster_size := None; opt_min_samples := None;
     opt_metric := None; opt_core_dist_n_jobs := None |}.

Definition world_of (doc : result (json float)) : World :=
  {| import_numpy := None; import_hdbscan := None;
     stdin_json := doc; fit_predict := halves |}.

(** The example of the specification: four points, two per axis. *)
Definition four_points : json float :=
  JObj [("ids", JArr [JStr "a"; JStr "b"; JStr "c"; JStr "d"]);
        ("embeddings",
         JArr [JArr [JInt 1; JInt 0]; JArr [JInt 1; JFloat 0.01%float];
               JArr [JInt 0; JInt 1]; JArr [JInt 0; JFloat 1.01%float]])].

Definition empty_input : json float :=
  JObj [("ids", JArr []); ("embeddings", JArr [])].

(** A world in which numpy is not installed and standard input holds no
    JSON document. *)
Definition no_numpy_bad_stdin : World :=
  {| import_numpy := Some (ImportError "No module named 'numpy'");
     import_hdbscan := None;
     stdin_json := Raise JSONDecodeError;
     fit_predict := halves |}.

(** [--min-cluster-size 5 --min-samples 0 --metric manhattan
    --core-dist-n-jobs 2]. *)
Definition manhattan_flags : CommandLine :=
  {| opt_min_cluster_size := Some 5; opt_min_samples := Some 0;
     opt_metric := Some "manhattan"; opt_core_dist_n_jobs := Some 2 |}.

(** Three rows under two ids: the lengths differ and nothing checks them. *)
Definition two_ids_three_rows : json float :=
  JObj [("ids", JArr [JInt 7; JInt 8]);
        ("embeddings", JArr [JArr [JInt 3; JInt 4]; JArr [JInt 0; JInt 0];
                             JArr [JFloat 0.25%float; JInt 0]])].

(** The same rows under one other value of [ids]. *)
Definition other_ids_three_rows : json float :=
  JObj [("ids", JStr "pqr");
        ("embeddings", JArr [JArr [JInt 3; JInt 4]; JArr [JInt 0; JInt 0];
                             JArr [JFloat 0.25%float; JInt 0]])].

(** A document whose [ids] has no length. *)
Definition ids_is_a_number : json float :=
  JObj [("ids", JInt 3); ("embeddings", JArr [JArr [JInt 1; JInt 2]])].

(** A document without the key [embeddings], and one without [ids]. *)
Definition only_ids : json float := JObj [("ids", JArr [JStr "a"])].

Definition only_embeddings : json float :=
  JObj [("embeddings", JArr [JArr [JInt 1]])].

(** A clusterer that fails, one that returns no label, and one that marks
    every row as noise. *)
Definition failing (c : HDBSCAN) (X : ndarray) : result (list Z) :=
  Raise (OtherError "MemoryError").

Definition silent (c : HDBSCAN) (X : ndarray) : result (list Z) := Ok [].

Definition all_noise (c : HDBSCAN) (X : ndarray) : result (list Z) :=
  match X with
  | Arr2 rows => Ok (map (fun _ => -1) rows)
  | _ => Raise ValueError
  end.


(** The one-character string U+00E9, two bytes in UTF-8. *)
Definition e_acute : string :=
  String (ascii_of_nat 195) (String (ascii_of_nat 169) EmptyString).

(** Three rows under an [ids] that is a string of one character. *)
Definition string_ids_three_rows : json float :=
  JObj [("ids", JStr e_acute);
        ("embeddings", JArr [JArr [JInt 3; JInt 4]; JArr [JInt 0; JInt 0];
                             JArr [JFloat 0.25%float; JInt 0]])].

Definition world_with (f : HDBSCAN -> ndarray -> result (list Z))
    (doc : result (json float)) : World :=
  {| import_numpy := None; import_hdbscan := None;
     stdin_json := doc; fit_predict := f |}.

(** hdbscan is installed against another numpy: its import raises an
    exception that is no [ImportError]. *)
Definition broken_hdbscan : World :=
  {| import_numpy := None;
     import_hdbscan := Some (OtherError "ValueError");
     stdin_json := Ok four_points;
     fit_predict := halves |}.

(** [--min-cluster-size 0]. *)
Definition zero_cluster_size_flags : CommandLine :=
  {| opt_min_cluster_size := Some 0; opt_min_samples := None;
     opt_metric := None; opt_core_dist_n_jobs := None |}.

(** The events of the run on the four points with the default options. *)
Definition four_points_trace : list event :=
  Eval vm_compute in fst (main no_flags (world_of (Ok four_points))).

(** The events of the run on the three rows under two ids. *)
Definition three_rows_trace : list event :=
  Eval vm_compute in fst (main no_flags (world_of (Ok two_ids_three_rows))).

(** The four points as [np.array] converts them, and as normalised. *)
Definition four_points_array : ndarray :=
  Arr2 [[1%float; 0%float]; [1%float; 0.01%float];
        [0%float; 1%float]; [0%float; 1.01%float]].

Definition four_points_normalized : ndarray :=
  Arr2 [[1%float; 0%float];
        [0.99995000374968768%float; 0.0099995000374968768%float];
        [0%float; 1%float]; [0%float; 1%float]].

End Binary64.

(** ** Reasoning about runs *)

Section Runs.
Context {pyfloat : Type} {np : Numpy pyfloat}.

Notation json := (json pyfloat).

Ltac run_main :=
  cbv beta iota zeta delta
    [bind print_stderr print_json emit call_fit_predict lift ret app fst snd].

Lemma bind_lift_ok {A B : Type} (a : A) (k : A -> M B) :
  bind (lift (Ok a)) k = k a.
Proof. unfold bind, lift. destruct (k a); reflexivity. Qed.

Lemma bind_ret {A B : Type} (a : A) (k : A -> M B) :
  bind (ret a) k = k a.
Proof. apply bind_lift_ok. Qed.

(** [main], phase by phase. *)
Lemma main_unfold (cli : CommandLine) (w : World) :
  main cli w =
  match missing_dependency w with
  | Some msg => ([Stdout (dependency_error msg)], Raise (SystemExit 1))
  | None =>
      match import_fault w with
      | Some e => ([], Raise e)
      | None =>
          match read_and_prepare (parse_args cli) w with
          | Raise e => ([], Raise e)
          | Ok (ids, n, X) => cluster_and_report (parse_args cli) w ids n X
          end
      end
  end.
Proof.
  unfold main, missing_dependency, import_fault, read_and_prepare.
  destruct (import_numpy w) as [[]|]; try reflexivity;
  destruct (import_hdbscan w) as [[]|]; try reflexivity.
  cbn [import_module try_except_ImportError].
  rewrite !bind_ret. cbn [try_except_ImportError ret].
  rewrite bind_ret.
  destruct (stdin_json w) as [data|]; [rewrite bind_lift_ok | reflexivity].
  destruct (subscript data "ids") as [ids|]; [rewrite bind_lift_ok | reflexivity].
  destruct (subscript data "embeddings") as [raw|]; [rewrite bind_lift_ok | reflexivity].
  destruct (np_array raw) as [E|]; [rewrite bind_lift_ok | reflexivity].
  assert (Hprep : forall k : ndarray -> M unit,
            bind (if String.eqb (metric (parse_args cli)) "euclidean"
                  then lift (l2_normalize E) else ret E) k
            = bind (lift (if String.eqb (metric (parse_args cli)) "euclidean"
                          then l2_normalize E else Ok E)) k).
  { intro k. destruct (String.eqb (metric (parse_args cli)) "euclidean"); reflexivity. }
  rewrite Hprep. clear Hprep.
  destruct (if String.eqb (metric (parse_args cli)) "euclidean"
            then l2_normalize E else Ok E) as [X|];
    [rewrite bind_lift_ok | reflexivity].
  destruct (py_len ids) as [n|]; [rewrite bind_lift_ok | reflexivity].
  unfold cluster_and_report, config_of, prelude, output_record, summary_line, n_clusters_of.
  run_main.
  destruct (fit_predict w _ X) as [labels|]; [| reflexivity].
  destruct (array_max labels) as [top|]; [| reflexivity].
  destruct (top >=? 0); reflexivity.
Qed.


(** *** Phases of a run *)

Lemma read_and_prepare_inv (cli : CommandLine) (w : World) (ids : json) (n : Z) (X : ndarray) :
  read_and_prepare (parse_args cli) w = Ok (ids, n, X) ->
  exists data raw E,
    stdin_json w = Ok data /\ subscript data "ids" = Ok ids /\
    subscript data "embeddings" = Ok raw /\ np_array raw = Ok E /\
    prepared (parse_args cli) E X /\ py_len ids = Ok n.
Proof.
  unfold read_and_prepare, prepared.
  destruct (stdin_json w) as [data|]; [| discriminate].
  destruct (subscript data "ids") as [ids'|] eqn:Hids; [| discriminate].
  destruct (subscript data "embeddings") as [raw|] eqn:Hraw; [| discriminate].
  destruct (np_array raw) as [E|] eqn:HE; [| discriminate].
  destruct (String.eqb (metric (parse_args cli)) "euclidean").
  - destruct (l2_normalize E) as [X'|] eqn:HX; [| discriminate].
    destruct (py_len ids') as [n'|] eqn:Hn; [| discriminate].
    intro H. injection H as -> -> ->. exists data, raw, E. auto 10.
  - destruct (py_len ids') as [n'|] eqn:Hn; [| discriminate].
    intro H. injection H as -> -> ->. exists data, raw, X. auto 10.
Qed.

(** A run that reaches the clusterer went through every earlier phase. *)
Lemma main_fit_inv (cli : CommandLine) (w : World) (c : HDBSCAN) (X : ndarray) :
  In (c, X) (fits_of (fst (main cli w))) ->
  c = config_of (parse_args cli) /\
  exists ids n, read_and_prepare (parse_args cli) w = Ok (ids, n, X).
Proof.
  rewrite main_unfold.
  destruct (missing_dependency w); [cbn; contradiction |].
  destruct (import_fault w); [cbn; contradiction |].
  destruct (read_and_prepare (parse_args cli) w) as [[[ids n] X']|]; [| cbn; contradiction].
  unfold cluster_and_report.
  assert (Hin : forall tail, fits_of tail = [] ->
            In (c, X)
               (fits_of (prelude (parse_args cli) n ++
                         Fit (config_of (parse_args cli)) X' :: tail)) ->
            c = config_of (parse_args cli) /\ X = X').
  { intros tail Htail. cbn. rewrite Htail. intros [H | []]. now injection H as <- <-. }
  destruct (fit_predict w (config_of (parse_args cli)) X') as [labels|];
    [destruct (array_max labels) as [top|] |]; cbn [fst]; intro H;
    apply Hin in H; try reflexivity; destruct H as [-> ->]; eauto.
Qed.

(** A run that returns went through every phase. *)
Lemma main_ok_inv (cli : CommandLine) (w : World) (t : list event) :
  main cli w = (t, Ok tt) ->
  exists ids n X labels top,
    import_numpy w = None /\ import_hdbscan w = None /\
    read_and_prepare (parse_args cli) w = Ok (ids, n, X) /\
    fit_predict w (config_of (parse_args cli)) X = Ok labels /\
    array_max labels = Ok top /\
    t = (prelude (parse_args cli) n ++
         [Fit (config_of (parse_args cli)) X; Stderr (summary_line labels top);
          Stdout (output_record ids labels top)])%list.
Proof.
  rewrite main_unfold. unfold missing_dependency, import_fault.
  destruct (import_numpy w) as [[]|]; try discriminate.
  destruct (import_hdbscan w) as [[]|]; try discriminate.
  destruct (read_and_prepare (parse_args cli) w) as [[[ids n] X]|]; [| discriminate].
  unfold cluster_and_report.
  destruct (fit_predict w (config_of (parse_args cli)) X) as [labels|] eqn:Hfit; [| discriminate].
  destruct (array_max labels) as [top|] eqn:Hmax; [| discriminate].
  intro H. injection H as <-. exists ids, n, X, labels, top. auto 10.
Qed.

Lemma missing_dependency_fails (w : World) (msg : string) :
  missing_dependency w = Some msg <-> import_raises_ImportError w msg.
Proof.
  unfold missing_dependency, import_raises_ImportError.
  destruct (import_numpy w) as [[]|]; try destruct (import_hdbscan w) as [[]|];
    split; try discriminate;
    try (intros [H | [H1 H2]]; congruence);
    try (intro H; injection H as <-; auto).
Qed.

(** Without a missing dependency, a run either returns and has printed the
    record, or fails and has printed nothing on standard output. *)
Lemma run_outcome (cli : CommandLine) (w : World) (t : list event) (r : result unit) :
  missing_dependency w = None ->
  main cli w = (t, r) ->
  (r = Ok tt /\ exists ids labels top, stdout_of t = [output_record ids labels top]) \/
  (r <> Ok tt /\ stdout_of t = []).
Proof.
  intro Hdep. rewrite main_unfold, Hdep.
  destruct (import_fault w);
    [intro H; injection H as <- <-; right; split; [discriminate | reflexivity] |].
  destruct (read_and_prepare (parse_args cli) w) as [[[ids n] X]|];
    [| intro H; injection H as <- <-; right; split; [discriminate | reflexivity]].
  unfold cluster_and_report.
  destruct (fit_predict w (config_of (parse_args cli)) X) as [labels|];
    [destruct (array_max labels) as [top|] |];
    intro H; injection H as <- <-;
    try (right; split; [discriminate | reflexivity]).
  left. split; [reflexivity |]. exists ids, labels, top. reflexivity.
Qed.

(** *** Lists of labels *)

Lemma fold_left_max_ge (l : list Z) (a : Z) : a <= fold_left Z.max l a.
Proof.
  revert a. induction l as [|x l IH]; intro a; cbn; [lia |].
  specialize (IH (Z.max a x)). lia.
Qed.

Lemma fold_left_max_upper (l : list Z) (a x : Z) :
  In x l -> x <= fold_left Z.max l a.
Proof.
  revert a. induction l as [|y l IH]; intros a Hin;
    [destruct Hin | destruct Hin as [-> | H]]; cbn.
  - pose proof (fold_left_max_ge l (Z.max a x)). lia.
  - now apply IH.
Qed.

Lemma fold_left_max_in (l : list Z) (a : Z) :
  fold_left Z.max l a = a \/ In (fold_left Z.max l a) l.
Proof.
  revert a. induction l as [|y l IH]; intro a; cbn; [now left |].
  destruct (IH (Z.max a y)) as [H | H]; [| now right; right].
  rewrite H. destruct (Z.max_spec a y) as [[_ ->] | [_ ->]]; auto.
Qed.

Lemma array_max_is_max (labels : list Z) (top : Z) :
  array_max labels = Ok top -> is_max_of top labels.
Proof.
  destruct labels as [|l rest]; [discriminate |].
  cbn. intro H. injection H as <-. split.
  - destruct (fold_left_max_in rest l) as [-> | H]; [now left | now right].
  - intros x [<- | H]; [apply fold_left_max_ge | now apply fold_left_max_upper].
Qed.

Lemma fold_left_add_shift (l : list Z) (a : Z) :
  fold_left Z.add l a = a + fold_left Z.add l 0.
Proof.
  revert a. induction l as [|x l IH]; intro a; cbn; [lia |].
  rewrite (IH (a + x)), (IH x). lia.
Qed.

Lemma count_eq_count_occ (v : Z) (labels : list Z) :
  count_eq v labels = Z.of_nat (count_occ Z.eq_dec labels v).
Proof.
  unfold count_eq. induction labels as [|l rest IH]; [reflexivity |].
  cbn [map fold_left count_occ]. rewrite fold_left_add_shift, IH.
  destruct (Z.eqb_spec l v) as [-> | Hne].
  - destruct (Z.eq_dec v v); [lia | contradiction].
  - destruct (Z.eq_dec l v); [contradiction | lia].
Qed.

Lemma wrap_int64_range (z : Z) : - 2 ^ 63 <= wrap_int64 z < 2 ^ 63.
Proof.
  unfold wrap_int64. pose proof (Z.mod_pos_bound (z + 2 ^ 63) (2 ^ 64)). lia.
Qed.

Lemma int64_add_exact (a b : Z) :
  - 2 ^ 63 <= a + b < 2 ^ 63 -> int64_add a b = a + b.
Proof.
  intro H. unfold int64_add, wrap_int64. rewrite Z.mod_small by lia. lia.
Qed.

Lemma n_clusters_of_exact (top : Z) :
  top < 2 ^ 63 - 1 -> n_clusters_of top = if top >=? 0 then top + 1 else 0.
Proof.
  intro H. unfold n_clusters_of. destruct (Z.geb_spec top 0); [| reflexivity].
  apply int64_add_exact. lia.
Qed.

(** *** Arrays *)

Lemma result_map_length {A B : Type} (f : A -> result B) (l : list A) (l' : list B) :
  result_map f l = Ok l' -> List.length l' = List.length l.
Proof.
  revert l'. induction l as [|a l IH]; intros l'; cbn.
  - intro H. now injection H as <-.
  - destruct (f a); [| discriminate].
    destruct (result_map f l) as [bs|]; [| discriminate].
    intro H. injection H as <-. cbn. now rewrite (IH bs).
Qed.

(** Dividing by the column of clipped norms divides each row by its own. *)
Lemma divide_by_column_rows (g : f32 -> f32) (rows : list (list f32)) :
  divide_by_column rows (map g (linalg_norm_axis1 rows)) =
  map (fun row => map (fun x => f32_div x (g (row_norm row))) row) rows.
Proof.
  unfold linalg_norm_axis1.
  induction rows as [|row rows IH]; [reflexivity |].
  cbn. now rewrite IH.
Qed.

Lemma l2_normalize_nrows (E X : ndarray) (k : Z) :
  l2_normalize E = Ok X -> (forall a, E <> ArrN a) -> nrows X = Ok k -> nrows E = Ok k.
Proof.
  destruct E as [x|xs|rows|a]; cbn; try discriminate.
  - intro H. injection H as <-. intros _. cbn.
    rewrite divide_by_column_rows, !length_map. auto.
  - intros _ H. now destruct (H a).
Qed.

Lemma np_array_rows (rows : list json) (E : ndarray) :
  forallb is_row rows = true -> np_array (JArr rows) = Ok E ->
  nrows E = Ok (Z.of_nat (List.length rows)) /\ forall a, E <> ArrN a.
Proof.
  intros Hrows. cbn. rewrite Hrows.
  destruct (forallb (fun x => negb (is_arr x)) rows).
  - destruct (result_map float32_of rows) as [xs|] eqn:Hxs; [| discriminate].
    intro H. injection H as <-. cbn. rewrite (result_map_length _ _ _ Hxs).
    split; [reflexivity | discriminate].
  - destruct (same_lengths rows); [| discriminate].
    destruct (result_map _ rows) as [M|] eqn:HM; [| discriminate].
    intro H. injection H as <-. cbn. rewrite (result_map_length _ _ _ HM).
    split; [reflexivity | discriminate].
Qed.


(** *** The claims *)

Lemma row_divisor_floor (row : list f32) :
  row_divisor row <> f32_zero /\
  f32_ltb (row_divisor row) f32_1e_8 = false /\
  (f32_ltb (row_norm row) f32_1e_8 = true \/ row_norm row = f32_1e_8 ->
   row_divisor row = f32_1e_8) /\
  (f32_ltb (row_norm row) f32_1e_8 = false -> row_divisor row = row_norm row).
Proof.
  unfold row_divisor, f32_max.
  pose proof f32_floor_irrefl as Hirr. pose proof f32_zero_lt_floor as Hpos.
  destruct (f32_ltb (row_norm row) f32_1e_8) eqn:Hlt; repeat split.
  - intro H. rewrite H in Hirr. congruence.
  - exact Hirr.
  - discriminate.
  - intro H. rewrite H in Hlt. congruence.
  - exact Hlt.
  - intros [H | H]; [discriminate | exact H].
Qed.

(** C1. When the metric is "euclidean", the matrix handed to the clustering
    routine is the input matrix with every row divided by the maximum of its
    Euclidean norm and the floor 1e-8; that divisor is never zero and never
    below the floor, it is the floor for a row whose norm is at or below the
    floor and the norm otherwise.  For every other metric the routine gets
    the array built from the input unchanged. *)
Theorem normalization_before_clustering
    (cli : CommandLine) (w : World) (c : HDBSCAN) (X : ndarray) :
  In (c, X) (fits_of (fst (main cli w))) ->
  exists data raw E,
    stdin_json w = Ok data /\
    subscript data "embeddings" = Ok raw /\
    np_array raw = Ok E /\
    (opt_metric cli = None \/ opt_metric cli = Some "euclidean" ->
     forall rows, E = Arr2 rows ->
       X = Arr2 (map (fun row => map (fun x => f32_div x (row_divisor row)) row) rows) /\
       forall row, In row rows ->
         row_divisor row <> f32_zero /\
         f32_ltb (row_divisor row) f32_1e_8 = false /\
         (f32_ltb (row_norm row) f32_1e_8 = true \/ row_norm row = f32_1e_8 ->
          row_divisor row = f32_1e_8) /\
         (f32_ltb (row_norm row) f32_1e_8 = false -> row_divisor row = row_norm row)) /\
    (forall m, opt_metric cli = Some m -> m <> "euclidean" -> X = E).
Proof.
  intro Hfit. apply main_fit_inv in Hfit as [_ (ids & n & Hread)].
  apply read_and_prepare_inv in Hread as (data & raw & E & Hd & _ & Hraw & HE & Hprep & _).
  exists data, raw, E. refine (conj Hd (conj Hraw (conj HE (conj _ _)))).
  - intros Hm rows ->. unfold prepared in Hprep.
    assert (Heu : metric (parse_args cli) = "euclidean")
      by (destruct Hm as [Hm | Hm]; cbn; now rewrite Hm).
    rewrite Heu in Hprep. cbn in Hprep. injection Hprep as <-. split.
    + f_equal. apply (divide_by_column_rows (fun n => np_clip_lo n f32_1e_8)).
    + intros row _. apply row_divisor_floor.
  - intros m Hm Hne. unfold prepared in Hprep. cbn in Hprep. rewrite Hm in Hprep.
    cbn in Hprep. destruct (String.eqb_spec m "euclidean"); [contradiction | assumption].
Qed.


(** C3, as the code has it. The run prints the one JSON object
    [{"error": "Missing dependency: ..."}] on standard output and exits with
    code 1 if and only if importing numpy or hdbscan raises [ImportError];
    a run that fails in any other way, an import that raises another
    exception among them, prints nothing on standard output; a run that
    returns exits with code 0. *)
Theorem dependency_error_iff (cli : CommandLine) (w : World) :
  (forall msg, import_raises_ImportError w msg ->
     stdout_of (fst (main cli w)) = [dependency_error msg] /\
     exit_code (snd (main cli w)) = 1) /\
  ((exists msg, stdout_of (fst (main cli w)) = [dependency_error msg] /\
                exit_code (snd (main cli w)) = 1) ->
   exists msg, import_raises_ImportError w msg) /\
  ((forall msg, ~ import_raises_ImportError w msg) -> snd (main cli w) <> Ok tt ->
   stdout_of (fst (main cli w)) = []) /\
  (snd (main cli w) = Ok tt -> exit_code (snd (main cli w)) = 0).
Proof.
  destruct (missing_dependency w) as [msg|] eqn:Hdep.
  { assert (Hfails : import_raises_ImportError w msg) by now apply missing_dependency_fails.
    rewrite main_unfold, Hdep. cbn [fst snd stdout_of exit_code].
    split; [| split; [| split]].
    - intros msg' H'. apply missing_dependency_fails in H'.
      assert (msg' = msg) by congruence. subst msg'. split; reflexivity.
    - intros _. now exists msg.
    - intros Hno. now destruct (Hno msg).
    - discriminate. }
  assert (Hnone : forall msg, ~ import_raises_ImportError w msg).
  { intros msg H. apply missing_dependency_fails in H. congruence. }
  destruct (main cli w) as [t r] eqn:Hrun. cbn [fst snd].
  destruct (run_outcome cli w t r Hdep Hrun)
    as [[-> (ids & labels & top & Hout)] | [Hr Hout]]; rewrite Hout.
  - split; [intros msg H; now destruct (Hnone msg) |].
    split; [intros (msg & H & _); discriminate |].
    split; [intros _ H; now destruct H | reflexivity].
  - split; [intros msg H; now destruct (Hnone msg) |].
    split; [intros (msg & H & _); discriminate |].
    split; [reflexivity | intro H; contradiction].
Qed.

(** C4. For a well-formed input (as many ids as rows, rows of leaves of one
    length) and a clustering routine that returns one label per row, the
    [labels] of the record a run prints are as many as the ids. *)
Theorem labels_length
    (cli : CommandLine) (w : World) (t : list event) (data : json) (ids rows : list json) :
  main cli w = (t, Ok tt) ->
  stdin_json w = Ok data ->
  well_formed_input data ids rows ->
  one_label_per_row w ->
  exists doc labels,
    stdout_of t = [doc] /\
    subscript doc "labels" = Ok (JArr (map JInt labels)) /\
    List.length labels = List.length ids.
Proof.
  intros Hrun Hdata (Hids & Hrows & Hlen & Hrow & _) Hone.
  apply main_ok_inv in Hrun as (ids' & n & X & labels & top & _ & _ & Hread & Hfit & _ & ->).
  apply read_and_prepare_inv in Hread as (data' & raw & E & Hd & Hi & Hr & HE & Hprep & _).
  rewrite Hdata in Hd. injection Hd as <-.
  rewrite Hrows in Hr. injection Hr as <-.
  exists (output_record ids' labels top), labels. repeat split.
  apply Hone in Hfit.
  destruct (np_array_rows rows E Hrow HE) as [HnE Hdeep].
  assert (HnX : nrows E = Ok (Z.of_nat (List.length labels))).
  { unfold prepared in Hprep. destruct (String.eqb (metric (parse_args cli)) "euclidean").
    - now apply (l2_normalize_nrows E X).
    - now subst X. }
  rewrite HnE in HnX. injection HnX as HnX. lia.
Qed.

(** C6. The record a run prints binds "ids" to the very value the input
    document binds to "ids". *)
Theorem ids_echoed (cli : CommandLine) (w : World) (t : list event) :
  main cli w = (t, Ok tt) ->
  exists data ids doc,
    stdin_json w = Ok data /\
    subscript data "ids" = Ok ids /\
    stdout_of t = [doc] /\
    subscript doc "ids" = Ok ids.
Proof.
  intro Hrun.
  apply main_ok_inv in Hrun as (ids & n & X & labels & top & _ & _ & Hread & _ & _ & ->).
  apply read_and_prepare_inv in Hread as (data & raw & E & Hd & Hi & _).
  exists data, ids, (output_record ids labels top). auto.
Qed.

(** C7. A run that returns printed exactly one document on standard output,
    as its last action: every line on standard error came before it. *)
Theorem single_document_last (cli : CommandLine) (w : World) (t : list event) :
  main cli w = (t, Ok tt) ->
  exists before doc,
    t = (before ++ [Stdout doc])%list /\
    stdout_of before = [] /\
    stdout_of t = [doc] /\
    stderr_of t = stderr_of before.
Proof.
  intro Hrun.
  apply main_ok_inv in Hrun as (ids & n & X & labels & top & _ & _ & _ & _ & _ & ->).
  exists (prelude (parse_args cli) n ++
          [Fit (config_of (parse_args cli)) X; Stderr (summary_line labels top)])%list,
    (output_record ids labels top).
  repeat split.
Qed.

(** C8, as the code has it. A run that returns wrote six lines on standard
    error: five before the clustering call (the number of vectors and the
    four options) and one after it (the summary of the result). *)
Theorem six_progress_lines (cli : CommandLine) (w : World) (t : list event) :
  main cli w = (t, Ok tt) ->
  exists n X labels top before after,
    t = (before ++ Fit (config_of (parse_args cli)) X :: after)%list /\
    stderr_of before =
      ["Clustering " ++ str_of_int n ++ " vectors with HDBSCAN...";
       "  min_cluster_size=" ++ str_of_int (min_cluster_size (parse_args cli));
       "  min_samples=" ++ str_of_int (hp_min_samples (config_of (parse_args cli)));
       "  metric=" ++ metric (parse_args cli);
       "  core_dist_n_jobs=" ++ str_of_int (core_dist_n_jobs (parse_args cli))] /\
    stderr_of after = [summary_line labels top] /\
    fits_of before = [] /\ fits_of after = [] /\
    List.length (stderr_of t) = 6%nat.
Proof.
  intro Hrun.
  apply main_ok_inv in Hrun as (ids & n & X & labels & top & _ & _ & _ & _ & _ & ->).
  exists n, X, labels, top, (prelude (parse_args cli) n),
    [Stderr (summary_line labels top); Stdout (output_record ids labels top)].
  repeat split.
Qed.

(** C9. The [min_samples] handed to the clustering routine is the minimum
    cluster size when [--min-samples] is absent and also when it is given as
    0; a value other than 0 is handed over as given. *)
Theorem min_samples_fallback (cli : CommandLine) (w : World) (c : HDBSCAN) (X : ndarray) :
  In (c, X) (fits_of (fst (main cli w))) ->
  hp_min_cluster_size c = min_cluster_size (parse_args cli) /\
  (opt_min_samples cli = None -> hp_min_samples c = min_cluster_size (parse_args cli)) /\
  (opt_min_samples cli = Some 0 -> hp_min_samples c = min_cluster_size (parse_args cli)) /\
  (forall v, opt_min_samples cli = Some v -> v <> 0 -> hp_min_samples c = v).
Proof.
  intro Hfit. apply main_fit_inv in Hfit as [-> _]. cbn.
  repeat split.
  - now intros ->.
  - now intros ->.
  - intros v -> Hv. cbn. destruct (Z.eqb_spec v 0); [contradiction | reflexivity].
Qed.

(** C5, as the code has it. When both libraries import and standard input
    holds no parseable JSON document, the run ends with a non-zero exit code
    and has printed nothing on standard output. *)
Theorem malformed_json_faults (cli : CommandLine) (w : World) :
  import_numpy w = None ->
  import_hdbscan w = None ->
  stdin_json w = Raise JSONDecodeError ->
  main cli w = ([], Raise JSONDecodeError) /\
  exit_code (snd (main cli w)) <> 0 /\
  stdout_of (fst (main cli w)) = [].
Proof.
  intros Hnp Hhd Hin.
  assert (Hrun : main cli w = ([], Raise JSONDecodeError)).
  { rewrite main_unfold. unfold missing_dependency, import_fault, read_and_prepare.
    now rewrite Hnp, Hhd, Hin. }
  rewrite Hrun. cbn. repeat split. discriminate.
Qed.

(** C10, as the code has it. On the empty input (no ids, no rows) the run
    faults and prints no record.  With the metric "euclidean" the norm along
    axis 1 is undefined on the empty vector and the run stops before the
    clustering call, whatever the clustering routine would do.  With any
    other metric the routine is called on the empty vector: when it returns
    the empty label array, [labels.max()] is undefined, and when it raises,
    the run ends with its exception. *)
Theorem empty_input_faults (cli : CommandLine) (w : World) (data : json) :
  import_numpy w = None ->
  import_hdbscan w = None ->
  stdin_json w = Ok data ->
  subscript data "ids" = Ok (JArr []) ->
  subscript data "embeddings" = Ok (JArr []) ->
  (metric (parse_args cli) = "euclidean" ->
   main cli w = ([], Raise AxisError)) /\
  (metric (parse_args cli) <> "euclidean" ->
   fits_of (fst (main cli w)) = [(config_of (parse_args cli), Arr1 [])] /\
   (fit_predict w (config_of (parse_args cli)) (Arr1 []) = Ok [] ->
    main cli w =
      ((prelude (parse_args cli) 0 ++ [Fit (config_of (parse_args cli)) (Arr1 [])])%list,
       Raise ValueError)) /\
   (forall e, fit_predict w (config_of (parse_args cli)) (Arr1 []) = Raise e ->
    main cli w =
      ((prelude (parse_args cli) 0 ++ [Fit (config_of (parse_args cli)) (Arr1 [])])%list,
       Raise e))) /\
  (metric (parse_args cli) = "euclidean" \/
   (forall labels, fit_predict w (config_of (parse_args cli)) (Arr1 []) = Ok labels ->
                   labels = []) ->
   stdout_of (fst (main cli w)) = [] /\ snd (main cli w) <> Ok tt).
Proof.
  intros Hnp Hhd Hin Hids Hemb.
  rewrite main_unfold. unfold missing_dependency, import_fault, read_and_prepare.
  rewrite Hnp, Hhd, Hin, Hids, Hemb. cbn [np_array forallb result_map result_fmap].
  destruct (String.eqb_spec (metric (parse_args cli)) "euclidean") as [Hm | Hm].
  - cbn [l2_normalize]. split; [reflexivity |]. split; [intro H; contradiction |].
    intros _. split; [reflexivity | discriminate].
  - cbn [py_len List.length Z.of_nat]. unfold cluster_and_report.
    split; [intro H; contradiction |]. split.
    + intros _.
      destruct (fit_predict w (config_of (parse_args cli)) (Arr1 [])) as [labels|e].
      * destruct labels as [|l rest]; cbn [array_max];
          (split; [reflexivity |]);
          (split; [first [intros _; reflexivity | intro H; discriminate]
                  | intros e' H; discriminate]).
      * split; [reflexivity |]. split; [intro H; discriminate |].
        intros e' H. now injection H as <-.
    + intros [H | Hempty]; [contradiction |].
      destruct (fit_predict w (config_of (parse_args cli)) (Arr1 [])) as [labels|e].
      * rewrite (Hempty labels eq_refl). cbn [array_max]. split; [reflexivity | discriminate].
      * split; [reflexivity | discriminate].
Qed.

End Runs.


(** ** Further properties of [main] *)

Section Further.
Context {pyfloat : Type} {np : Numpy pyfloat}.

Notation json := (json pyfloat).

(** *** Helpers *)

Lemma imports_succeed (w : World) :
  import_numpy w = None -> import_hdbscan w = None ->
  missing_dependency w = None /\ import_fault w = None.
Proof.
  intros Hnp Hhd. unfold missing_dependency, import_fault. now rewrite Hnp, Hhd.
Qed.

(** A run that calls the clusterer is the run of its last phase. *)
Lemma main_reaches_fit (cli : CommandLine) (w : World) (c : HDBSCAN) (X : ndarray) :
  In (c, X) (fits_of (fst (main cli w))) ->
  c = config_of (parse_args cli) /\
  exists ids n,
    read_and_prepare (parse_args cli) w = Ok (ids, n, X) /\
    main cli w = cluster_and_report (parse_args cli) w ids n X.
Proof.
  intro Hin. destruct (main_fit_inv cli w c X Hin) as [Hc (ids & n & Hread)].
  split; [exact Hc |]. exists ids, n. split; [exact Hread |].
  revert Hin. rewrite main_unfold.
  destruct (missing_dependency w); [cbn; contradiction |].
  destruct (import_fault w); [cbn; contradiction |].
  now rewrite Hread.
Qed.

Lemma read_and_prepare_ok
    (cli : CommandLine) (w : World) (data ids raw : json) (E X : ndarray) (n : Z) :
  stdin_json w = Ok data ->
  subscript data "ids" = Ok ids ->
  subscript data "embeddings" = Ok raw ->
  np_array raw = Ok E ->
  prepared (parse_args cli) E X ->
  py_len ids = Ok n ->
  read_and_prepare (parse_args cli) w = Ok (ids, n, X).
Proof.
  intros Hd Hi Hr HE Hp Hn. unfold read_and_prepare, prepared in *.
  rewrite Hd, Hi, Hr, HE.
  destruct (String.eqb (metric (parse_args cli)) "euclidean").
  - now rewrite Hp, Hn.
  - subst X. now rewrite Hn.
Qed.

Lemma array_max_ok (labels : list Z) :
  labels <> [] -> exists top, array_max labels = Ok top.
Proof.
  destruct labels as [|l rest]; [contradiction | intros _]. cbn. eauto.
Qed.

Lemma count_eq_bounds (v : Z) (labels : list Z) :
  0 <= count_eq v labels <= Z.of_nat (List.length labels).
Proof.
  rewrite count_eq_count_occ. pose proof (count_occ_bound Z.eq_dec v labels). lia.
Qed.

Lemma divide_by_column_shape (rows : list (list f32)) (col : list f32) :
  List.length col = List.length rows ->
  row_lengths (divide_by_column rows col) = row_lengths rows.
Proof.
  unfold row_lengths. revert col.
  induction rows as [|row rows IH]; intros [|d col]; cbn; try discriminate; [reflexivity |].
  intro H. injection H as H. now rewrite length_map, IH.
Qed.

Lemma cluster_and_report_frame
    (args : Args) (w : World) (ids1 ids2 : json) (n1 n2 : Z) (X : ndarray) :
  fits_of (fst (cluster_and_report args w ids1 n1 X)) =
  fits_of (fst (cluster_and_report args w ids2 n2 X)) /\
  snd (cluster_and_report args w ids1 n1 X) = snd (cluster_and_report args w ids2 n2 X).
Proof.
  unfold cluster_and_report.
  destruct (fit_predict w (config_of args) X) as [labels|];
    [destruct (array_max labels) as [top|] |]; split; reflexivity.
Qed.

Lemma read_and_prepare_with_stdin
    (args : Args) (w : World) (data ids raw : json) (n : Z) :
  subscript data "ids" = Ok ids ->
  py_len ids = Ok n ->
  subscript data "embeddings" = Ok raw ->
  read_and_prepare args (with_stdin w (Ok data)) =
  match np_array raw with
  | Raise e => Raise e
  | Ok E =>
      match (if String.eqb (metric args) "euclidean" then l2_normalize E else Ok E) with
      | Raise e => Raise e
      | Ok X => Ok (ids, n, X)
      end
  end.
Proof.
  intros Hi Hn Hr. unfold read_and_prepare. cbn [stdin_json with_stdin].
  rewrite Hi, Hr. destruct (np_array raw) as [E|]; [| reflexivity].
  destruct (if String.eqb (metric args) "euclidean" then l2_normalize E else Ok E);
    [now rewrite Hn | reflexivity].
Qed.

(** *** Faults before anything is printed *)

(** X1. With both libraries imported, a document that is a JSON object
    without the key "ids" ends the run with [KeyError] on that key, and one
    with "ids" but without "embeddings" with [KeyError] on the latter;
    nothing is printed and the clusterer is not called. *)
Theorem missing_key_faults (cli : CommandLine) (w : World) (fields : list (string * json)) :
  import_numpy w = None ->
  import_hdbscan w = None ->
  stdin_json w = Ok (JObj fields) ->
  (lookup_field "ids" fields = None ->
   main cli w = ([], Raise (KeyError "ids"))) /\
  (lookup_field "ids" fields <> None -> lookup_field "embeddings" fields = None ->
   main cli w = ([], Raise (KeyError "embeddings"))).
Proof.
  intros Hnp Hhd Hin. destruct (imports_succeed w Hnp Hhd) as [Hm Hf].
  rewrite main_unfold, Hm, Hf. unfold read_and_prepare. rewrite Hin. cbn [subscript].
  split.
  - now intros ->.
  - intros Hids Hemb. destruct (lookup_field "ids" fields); [| contradiction].
    now rewrite Hemb.
Qed.

(** X2. With both libraries imported, a document that is no JSON object (a
    list, a string, a number, true, false or null) ends the run with
    [TypeError]; nothing is printed and the clusterer is not called. *)
Theorem non_object_document_faults (cli : CommandLine) (w : World) (data : json) :
  import_numpy w = None ->
  import_hdbscan w = None ->
  stdin_json w = Ok data ->
  (forall fields, data <> JObj fields) ->
  main cli w = ([], Raise TypeError).
Proof.
  intros Hnp Hhd Hin Hno. destruct (imports_succeed w Hnp Hhd) as [Hm Hf].
  rewrite main_unfold, Hm, Hf. unfold read_and_prepare. rewrite Hin.
  destruct data; try reflexivity. now destruct (Hno fields).
Qed.

(** X3. An import that raises an exception other than [ImportError] is not
    caught: the run ends with that exception and prints nothing, neither the
    dependency error nor anything else. *)
Theorem import_exception_propagates (cli : CommandLine) (w : World) (e : exn) :
  import_numpy w = Some e \/ (import_numpy w = None /\ import_hdbscan w = Some e) ->
  (forall msg, e <> ImportError msg) ->
  main cli w = ([], Raise e).
Proof.
  intros Himp Hne. rewrite main_unfold. unfold missing_dependency, import_fault.
  destruct Himp as [Hnp | [Hnp Hhd]]; rewrite Hnp; [| rewrite Hhd];
    destruct e; try reflexivity; now destruct (Hne msg).
Qed.

(** X4. When [ids] has no length (a number, true, false or null), the run
    fails before it prints anything or calls the clusterer, whatever
    "embeddings" holds; when the embeddings convert, the failure is the
    [TypeError] of [len(ids)]. *)
Theorem ids_without_length_faults
    (cli : CommandLine) (w : World) (data ids : json) (e : exn) :
  import_numpy w = None ->
  import_hdbscan w = None ->
  stdin_json w = Ok data ->
  subscript data "ids" = Ok ids ->
  py_len ids = Raise e ->
  fst (main cli w) = [] /\
  snd (main cli w) <> Ok tt /\
  (forall raw E X,
     subscript data "embeddings" = Ok raw -> np_array raw = Ok E ->
     prepared (parse_args cli) E X ->
     e = TypeError /\ main cli w = ([], Raise TypeError)).
Proof.
  intros Hnp Hhd Hin Hids Hlen. destruct (imports_succeed w Hnp Hhd) as [Hm Hf].
  rewrite main_unfold, Hm, Hf. unfold read_and_prepare, prepared.
  rewrite Hin, Hids, Hlen.
  assert (He : e = TypeError).
  { destruct ids; cbn in Hlen; try discriminate; now injection Hlen as <-. }
  subst e. split; [| split].
  - destruct (subscript data "embeddings") as [raw|]; [| reflexivity].
    destruct (np_array raw) as [E|]; [| reflexivity].
    destruct (if String.eqb _ _ then l2_normalize E else Ok E); reflexivity.
  - destruct (subscript data "embeddings") as [raw|]; [| discriminate].
    destruct (np_array raw) as [E|]; [| discriminate].
    destruct (if String.eqb _ _ then l2_normalize E else Ok E); discriminate.
  - intros raw E X -> -> Hp. split; [reflexivity |].
    destruct (String.eqb (metric (parse_args cli)) "euclidean").
    + now rewrite Hp.
    + reflexivity.
Qed.

(** *** The clustering call *)

(** X5. The clusterer is built from the options as given: the minimum
    cluster size, the metric and the number of jobs it receives are the
    values of the flags, or 4, "euclidean" and -1 for an absent flag. *)
Theorem options_passed_verbatim (cli : CommandLine) (w : World) (c : HDBSCAN) (X : ndarray) :
  In (c, X) (fits_of (fst (main cli w))) ->
  hp_min_cluster_size c = with_default (opt_min_cluster_size cli) 4 /\
  hp_metric c = with_default (opt_metric cli) "euclidean" /\
  hp_core_dist_n_jobs c = with_default (opt_core_dist_n_jobs cli) (-1).
Proof.
  intro Hin. apply main_fit_inv in Hin as [-> _]. repeat split.
Qed.

(** X6. The clusterer never receives [min_samples = 0] unless
    [--min-cluster-size 0] is given: a zero or absent [--min-samples] is
    replaced by the minimum cluster size, whose default is 4. *)
Theorem min_samples_zero_only_by_cluster_size
    (cli : CommandLine) (w : World) (c : HDBSCAN) (X : ndarray) :
  In (c, X) (fits_of (fst (main cli w))) ->
  hp_min_samples c = 0 ->
  opt_min_cluster_size cli = Some 0 /\
  (opt_min_samples cli = None \/ opt_min_samples cli = Some 0).
Proof.
  intro Hin. apply main_fit_inv in Hin as [-> _]. cbn. unfold py_or.
  destruct (opt_min_samples cli) as [v|].
  - destruct (Z.eqb_spec v 0) as [-> | Hv].
    + destruct (opt_min_cluster_size cli) as [m|]; cbn; [| discriminate].
      intros ->. auto.
    + intro H. contradiction.
  - destruct (opt_min_cluster_size cli) as [m|]; cbn; [| discriminate].
    intros ->. auto.
Qed.

(** X7. A failure of the clustering routine ends the run with the routine's
    exception: the five lines of the configuration are on standard error,
    nothing is on standard output, and the routine is not called again. *)
Theorem clusterer_failure_propagates
    (cli : CommandLine) (w : World) (c : HDBSCAN) (X : ndarray) (e : exn) :
  In (c, X) (fits_of (fst (main cli w))) ->
  fit_predict w c X = Raise e ->
  snd (main cli w) = Raise e /\
  stdout_of (fst (main cli w)) = [] /\
  List.length (stderr_of (fst (main cli w))) = 5%nat /\
  fits_of (fst (main cli w)) = [(c, X)].
Proof.
  intros Hin Hfit. apply main_reaches_fit in Hin as [-> (ids & n & _ & ->)].
  unfold cluster_and_report. rewrite Hfit. repeat split.
Qed.

(** X8. Whatever the input, when the clustering routine returns an empty
    label array the run ends with the [ValueError] of [labels.max()]: no
    record is printed, and no summary line. *)
Theorem empty_labels_fault
    (cli : CommandLine) (w : World) (c : HDBSCAN) (X : ndarray) :
  In (c, X) (fits_of (fst (main cli w))) ->
  fit_predict w c X = Ok [] ->
  snd (main cli w) = Raise ValueError /\
  stdout_of (fst (main cli w)) = [] /\
  List.length (stderr_of (fst (main cli w))) = 5%nat.
Proof.
  intros Hin Hfit. apply main_reaches_fit in Hin as [-> (ids & n & _ & ->)].
  unfold cluster_and_report. rewrite Hfit. repeat split.
Qed.

(** X9. The normalisation keeps the shape of the matrix: the clusterer
    receives as many rows as the input has, each of the length of the row it
    comes from, for every metric. *)
Theorem normalization_keeps_shape
    (cli : CommandLine) (w : World) (c : HDBSCAN) (X : ndarray) :
  In (c, X) (fits_of (fst (main cli w))) ->
  exists data raw E,
    stdin_json w = Ok data /\
    subscript data "embeddings" = Ok raw /\
    np_array raw = Ok E /\
    forall rows, E = Arr2 rows ->
      exists rows', X = Arr2 rows' /\
        List.length rows' = List.length rows /\
        row_lengths rows' = row_lengths rows.
Proof.
  intro Hin. apply main_fit_inv in Hin as [_ (ids & n & Hread)].
  apply read_and_prepare_inv in Hread as (data & raw & E & Hd & _ & Hraw & HE & Hprep & _).
  exists data, raw, E. refine (conj Hd (conj Hraw (conj HE _))).
  intros rows ->. unfold prepared in Hprep.
  destruct (String.eqb (metric (parse_args cli)) "euclidean").
  - cbn in Hprep. injection Hprep as <-. eexists. split; [reflexivity |].
    assert (Hshape : row_lengths
              (divide_by_column rows
                 (map (fun n => np_clip_lo n f32_1e_8) (linalg_norm_axis1 rows)))
            = row_lengths rows).
    { apply divide_by_column_shape. unfold linalg_norm_axis1. now rewrite !length_map. }
    split; [| exact Hshape].
    apply (f_equal (@List.length nat)) in Hshape. unfold row_lengths in Hshape.
    now rewrite !length_map in Hshape.
  - subst X. exists rows. auto.
Qed.

(** *** The record and the lines of a run that returns *)

(** X10. In the record a run prints, the label array is not empty,
    [n_noise] lies between 0 and the number of labels, and [n_clusters] is a
    64-bit integer.  When every label is below 2^63 - 1, [n_clusters] is not
    negative, exceeds every label, and is 0 exactly when every label is
    negative. *)
Theorem record_invariants (cli : CommandLine) (w : World) (t : list event) :
  main cli w = (t, Ok tt) ->
  exists doc labels n_clusters n_noise,
    stdout_of t = [doc] /\
    subscript doc "labels" = Ok (JArr (map JInt labels)) /\
    subscript doc "n_clusters" = Ok (JInt n_clusters) /\
    subscript doc "n_noise" = Ok (JInt n_noise) /\
    labels <> [] /\
    0 <= n_noise <= Z.of_nat (List.length labels) /\
    - 2 ^ 63 <= n_clusters < 2 ^ 63 /\
    ((forall l, In l labels -> l < 2 ^ 63 - 1) ->
     0 <= n_clusters /\
     (forall l, In l labels -> l < n_clusters) /\
     (n_clusters = 0 <-> forall l, In l labels -> l < 0)).
Proof.
  intro Hrun.
  apply main_ok_inv in Hrun as (ids & n & X & labels & top & _ & _ & _ & _ & Hmax & ->).
  exists (output_record ids labels top), labels, (n_clusters_of top), (count_eq (-1) labels).
  apply array_max_is_max in Hmax as Htop. destruct Htop as [Hin Hup].
  refine (conj eq_refl (conj eq_refl (conj eq_refl (conj eq_refl _)))).
  split; [intros ->; destruct Hin |].
  split; [apply count_eq_bounds |].
  split.
  { unfold n_clusters_of. destruct (top >=? 0); [apply wrap_int64_range | lia]. }
  intro Hsmall. rewrite (n_clusters_of_exact top (Hsmall top Hin)).
  split; [destruct (Z.geb_spec top 0); lia |].
  split; [intros l Hl; specialize (Hup l Hl); destruct (Z.geb_spec top 0); lia |].
  split.
  - intros H0 l Hl. specialize (Hup l Hl). destruct (Z.geb_spec top 0); lia.
  - intro Hneg. specialize (Hneg top Hin). destruct (Z.geb_spec top 0); lia.
Qed.

(** X11. The record has the four keys "labels", "ids", "n_clusters" and
    "n_noise", in this order, and the last line on standard error reports
    the two counts of the record. *)
Theorem summary_reports_the_record (cli : CommandLine) (w : World) (t : list event) :
  main cli w = (t, Ok tt) ->
  exists labels ids n_clusters n_noise,
    stdout_of t = [JObj [("labels", labels); ("ids", ids);
                         ("n_clusters", JInt n_clusters); ("n_noise", JInt n_noise)]] /\
    List.last (stderr_of t) "" =
      "Found " ++ str_of_int n_clusters ++ " clusters, "
      ++ str_of_int n_noise ++ " noise points".
Proof.
  intro Hrun.
  apply main_ok_inv in Hrun as (ids & n & X & labels & top & _ & _ & _ & _ & _ & ->).
  exists (JArr (map JInt labels)), ids, (n_clusters_of top), (count_eq (-1) labels).
  split; reflexivity.
Qed.

(** X12. Whenever [main] prints a progress line, the first one is
    "Clustering N vectors with HDBSCAN..." where N is [len(ids)] of the
    input document: the entries of a list, the keys of an object, the
    characters of a string.  N is read off the ids alone. *)
Theorem vector_count_is_len_ids (cli : CommandLine) (w : World) :
  stderr_of (fst (main cli w)) <> [] ->
  exists data ids n,
    stdin_json w = Ok data /\
    subscript data "ids" = Ok ids /\
    py_len ids = Ok n /\
    List.hd "" (stderr_of (fst (main cli w))) =
      "Clustering " ++ str_of_int n ++ " vectors with HDBSCAN..." /\
    (forall items, ids = JArr items -> n = Z.of_nat (List.length items)) /\
    (forall fields, ids = JObj fields -> n = Z.of_nat (List.length fields)) /\
    (forall s, ids = JStr s -> n = Z.of_nat (utf8_length s)).
Proof.
  rewrite main_unfold.
  destruct (missing_dependency w); [intro H; now destruct H |].
  destruct (import_fault w); [intro H; now destruct H |].
  destruct (read_and_prepare (parse_args cli) w) as [[[ids n] X]|] eqn:Hread;
    [| intro H; now destruct H].
  intros _.
  apply read_and_prepare_inv in Hread as (data & raw & E & Hd & Hi & _ & _ & _ & Hn).
  exists data, ids, n.
  refine (conj Hd (conj Hi (conj Hn (conj _ _)))).
  - unfold cluster_and_report.
    destruct (fit_predict w (config_of (parse_args cli)) X) as [labels|];
      [destruct (array_max labels) as [top|] |]; reflexivity.
  - split; [| split]; intros x ->; cbn in Hn; now injection Hn as <-.
Qed.

(** X13. The run returns exactly when every step succeeds: both imports,
    [json.load], the two lookups, the conversion, the normalisation under
    the metric "euclidean", [len(ids)], and a call of the clustering routine
    that returns at least one label. *)
Theorem run_returns_iff (cli : CommandLine) (w : World) :
  snd (main cli w) = Ok tt <->
  (import_numpy w = None /\ import_hdbscan w = None /\
   exists data ids raw E X n labels,
     stdin_json w = Ok data /\
     subscript data "ids" = Ok ids /\
     subscript data "embeddings" = Ok raw /\
     np_array raw = Ok E /\
     prepared (parse_args cli) E X /\
     py_len ids = Ok n /\
     fit_predict w (config_of (parse_args cli)) X = Ok labels /\
     labels <> []).
Proof.
  split.
  - intro Hr. destruct (main cli w) as [t r] eqn:Hrun. cbn in Hr. subst r.
    apply main_ok_inv in Hrun
      as (ids & n & X & labels & top & Hnp & Hhd & Hread & Hfit & Hmax & _).
    apply read_and_prepare_inv in Hread as (data & raw & E & Hd & Hi & Hraw & HE & Hp & Hn).
    refine (conj Hnp (conj Hhd _)). exists data, ids, raw, E, X, n, labels.
    repeat (split; [assumption |]). intros ->. discriminate.
  - intros (Hnp & Hhd & data & ids & raw & E & X & n & labels
            & Hd & Hi & Hraw & HE & Hp & Hn & Hfit & Hne).
    destruct (imports_succeed w Hnp Hhd) as [Hm Hf].
    rewrite main_unfold, Hm, Hf.
    rewrite (read_and_prepare_ok cli w data ids raw E X n Hd Hi Hraw HE Hp Hn).
    unfold cluster_and_report. rewrite Hfit.
    destruct (array_max_ok labels Hne) as [top ->]. reflexivity.
Qed.

(** X14. In every run, returning or not, [main] prints at most one
    document on standard output and calls the clusterer at most once; of its
    own progress lines it prints none, five or six on standard error, six
    exactly when it returns, and at least five exactly when the clusterer
    was called. *)
Theorem run_shape (cli : CommandLine) (w : World) :
  (List.length (stdout_of (fst (main cli w))) <= 1)%nat /\
  (List.length (fits_of (fst (main cli w))) <= 1)%nat /\
  (List.length (stderr_of (fst (main cli w))) = 0%nat \/
   List.length (stderr_of (fst (main cli w))) = 5%nat \/
   List.length (stderr_of (fst (main cli w))) = 6%nat) /\
  (List.length (stderr_of (fst (main cli w))) = 6%nat <-> snd (main cli w) = Ok tt) /\
  (List.length (fits_of (fst (main cli w))) = 1%nat <->
   (5 <= List.length (stderr_of (fst (main cli w))))%nat).
Proof.
  rewrite main_unfold.
  destruct (missing_dependency w);
    [cbn; repeat split; auto; try discriminate; lia |].
  destruct (import_fault w);
    [cbn; repeat split; auto; try discriminate; lia |].
  destruct (read_and_prepare (parse_args cli) w) as [[[ids n] X]|];
    [| cbn; repeat split; auto; try discriminate; lia].
  unfold cluster_and_report.
  destruct (fit_predict w (config_of (parse_args cli)) X) as [labels|];
    [destruct (array_max labels) as [top|] |];
    cbn [fst snd prelude app stdout_of stderr_of fits_of List.length];
    repeat split; auto; try discriminate; lia.
Qed.

(** X15. The ids do not influence the clustering: two runs on documents
    with the same "embeddings", whose "ids" both have a length, call the
    clusterer with the same arguments and end alike, both returning or both
    with the same exception; when they return, the two records hold the same
    labels and the same counts, each under its own ids. *)
Theorem ids_do_not_influence_clustering
    (cli : CommandLine) (w : World) (data1 data2 ids1 ids2 raw : json) (n1 n2 : Z) :
  subscript data1 "ids" = Ok ids1 -> py_len ids1 = Ok n1 ->
  subscript data2 "ids" = Ok ids2 -> py_len ids2 = Ok n2 ->
  subscript data1 "embeddings" = Ok raw ->
  subscript data2 "embeddings" = Ok raw ->
  fits_of (fst (main cli (with_stdin w (Ok data1)))) =
  fits_of (fst (main cli (with_stdin w (Ok data2)))) /\
  snd (main cli (with_stdin w (Ok data1))) = snd (main cli (with_stdin w (Ok data2))) /\
  (snd (main cli (with_stdin w (Ok data1))) = Ok tt ->
   exists doc1 doc2,
     stdout_of (fst (main cli (with_stdin w (Ok data1)))) = [doc1] /\
     stdout_of (fst (main cli (with_stdin w (Ok data2)))) = [doc2] /\
     subscript doc2 "labels" = subscript doc1 "labels" /\
     subscript doc2 "n_clusters" = subscript doc1 "n_clusters" /\
     subscript doc2 "n_noise" = subscript doc1 "n_noise" /\
     subscript doc1 "ids" = Ok ids1 /\ subscript doc2 "ids" = Ok ids2).
Proof.
  intros Hi1 Hn1 Hi2 Hn2 Hr1 Hr2.
  rewrite !main_unfold.
  change (missing_dependency (with_stdin w (Ok data1))) with (missing_dependency w).
  change (missing_dependency (with_stdin w (Ok data2))) with (missing_dependency w).
  change (import_fault (with_stdin w (Ok data1))) with (import_fault w).
  change (import_fault (with_stdin w (Ok data2))) with (import_fault w).
  destruct (missing_dependency w);
    [split; [reflexivity | split; [reflexivity | discriminate]] |].
  destruct (import_fault w);
    [split; [reflexivity | split; [reflexivity | discriminate]] |].
  rewrite (read_and_prepare_with_stdin _ w data1 ids1 raw n1 Hi1 Hn1 Hr1).
  rewrite (read_and_prepare_with_stdin _ w data2 ids2 raw n2 Hi2 Hn2 Hr2).
  destruct (np_array raw) as [E|];
    [| split; [reflexivity | split; [reflexivity | discriminate]]].
  destruct (if String.eqb (metric (parse_args cli)) "euclidean"
            then l2_normalize E else Ok E) as [X|];
    [| split; [reflexivity | split; [reflexivity | discriminate]]].
  unfold cluster_and_report. cbn [fit_predict with_stdin].
  destruct (fit_predict w (config_of (parse_args cli)) X) as [labels|];
    [destruct (array_max labels) as [top|] |];
    (split; [reflexivity | split; [reflexivity |]]); try discriminate.
  intros _. exists (output_record ids1 labels top), (output_record ids2 labels top).
  repeat split.
Qed.

(** X16. A well-formed input with at least one row is clustered and
    reported: when the leaves convert to float32 and the clustering routine
    returns one label per row, the run returns, exits with code 0 and prints
    the record with as many labels as ids. *)
Theorem well_formed_input_is_reported
    (cli : CommandLine) (w : World) (data : json) (ids rows : list json)
    (E X : ndarray) (labels : list Z) :
  import_numpy w = None ->
  import_hdbscan w = None ->
  stdin_json w = Ok data ->
  well_formed_input data ids rows ->
  rows <> [] ->
  np_array (JArr rows) = Ok E ->
  prepared (parse_args cli) E X ->
  fit_predict w (config_of (parse_args cli)) X = Ok labels ->
  one_label_per_row w ->
  exists t top,
    main cli w = (t, Ok tt) /\
    exit_code (snd (main cli w)) = 0 /\
    stdout_of t = [output_record (JArr ids) labels top] /\
    List.length labels = List.length ids.
Proof.
  intros Hnp Hhd Hd (Hi & Hr & Hlen & Hrow & Hsame) Hne HE Hp Hfit Hone.
  destruct (np_array_rows rows E Hrow HE) as [HnE Hdeep].
  assert (HnX : nrows E = Ok (Z.of_nat (List.length labels))).
  { pose proof (Hone _ _ _ Hfit) as HX. unfold prepared in Hp.
    destruct (String.eqb (metric (parse_args cli)) "euclidean").
    - now apply (l2_normalize_nrows E X).
    - now subst X. }
  rewrite HnE in HnX. injection HnX as HnX.
  assert (Hlab : labels <> []).
  { intros ->. destruct rows; [contradiction | discriminate]. }
  destruct (array_max_ok labels Hlab) as [top Hmax].
  destruct (imports_succeed w Hnp Hhd) as [Hm Hf].
  assert (Hrun : main cli w =
            ((prelude (parse_args cli) (Z.of_nat (List.length ids)) ++
              [Fit (config_of (parse_args cli)) X; Stderr (summary_line labels top);
               Stdout (output_record (JArr ids) labels top)])%list, Ok tt)).
  { rewrite main_unfold, Hm, Hf.
    rewrite (read_and_prepare_ok cli w data (JArr ids) (JArr rows) E X _
               Hd Hi Hr HE Hp eq_refl).
    unfold cluster_and_report. now rewrite Hfit, Hmax. }
  rewrite Hrun. eexists. exists top. repeat split. lia.
Qed.

End Further.

(** ** The claims on concrete runs *)

Section Examples.
Import Binary64.

Lemma halves_one_label_per_row (doc : result (json float)) :
  one_label_per_row (world_of doc).
Proof.
  intros c X labels. destruct X as [x | [|x xs] | rows | a]; cbn; try discriminate.
  - intro H. now injection H as <-.
  - intro H. injection H as <-. now rewrite length_map.
Qed.

Lemma normalization_before_clustering_witness :
  In (config_of (parse_args no_flags),
      Arr2 [[1%float; 0%float];
            [0.99995000374968768%float; 0.0099995000374968768%float];
            [0%float; 1%float]; [0%float; 1%float]])
     (fits_of (fst (main no_flags (world_of (Ok four_points))))) /\
  exists data raw E,
    stdin_json (world_of (Ok four_points)) = Ok data /\
    subscript data "embeddings" = Ok raw /\
    np_array raw = Ok E /\
    (opt_metric no_flags = None \/ opt_metric no_flags = Some "euclidean" ->
     forall rows, E = Arr2 rows ->
       Arr2 [[1%float; 0%float];
             [0.99995000374968768%float; 0.0099995000374968768%float];
             [0%float; 1%float]; [0%float; 1%float]] =
       Arr2 (map (fun row => map (fun x => f32_div x (row_divisor row)) row) rows) /\
       forall row, In row rows ->
         row_divisor row <> f32_zero /\
         f32_ltb (row_divisor row) f32_1e_8 = false /\
         (f32_ltb (row_norm row) f32_1e_8 = true \/ row_norm row = f32_1e_8 ->
          row_divisor row = f32_1e_8) /\
         (f32_ltb (row_norm row) f32_1e_8 = false -> row_divisor row = row_norm row)) /\
    (forall m, opt_metric no_flags = Some m -> m <> "euclidean" ->
     Arr2 [[1%float; 0%float];
           [0.99995000374968768%float; 0.0099995000374968768%float];
           [0%float; 1%float]; [0%float; 1%float]] = E).
Proof.
  assert (H : In (config_of (parse_args no_flags),
                  Arr2 [[1%float; 0%float];
                        [0.99995000374968768%float; 0.0099995000374968768%float];
                        [0%float; 1%float]; [0%float; 1%float]])
                 (fits_of (fst (main no_flags (world_of (Ok four_points)))))).
  { vm_compute. left. reflexivity. }
  split; [exact H |].
  exact (normalization_before_clustering no_flags (world_of (Ok four_points)) _ _ H).
Defined.



(** C3 as stated fails: here importing hdbscan fails, with an exception
    that is no [ImportError]; the run exits with code 1 and has printed no
    JSON object. *)
Lemma failed_import_counterexample :
  import_numpy broken_hdbscan = None /\
  import_hdbscan broken_hdbscan = Some (OtherError "ValueError") /\
  main no_flags broken_hdbscan = ([], Raise (OtherError "ValueError")) /\
  stdout_of (fst (main no_flags broken_hdbscan)) = [] /\
  exit_code (snd (main no_flags broken_hdbscan)) = 1.
Proof.
  repeat split.
Qed.

Lemma labels_length_witness :
  main no_flags (world_of (Ok four_points)) = (four_points_trace, Ok tt) /\
  well_formed_input four_points
    [JStr "a"; JStr "b"; JStr "c"; JStr "d"]
    [JArr [JInt 1; JInt 0]; JArr [JInt 1; JFloat 0.01%float];
     JArr [JInt 0; JInt 1]; JArr [JInt 0; JFloat 1.01%float]] /\
  exists doc labels,
    stdout_of four_points_trace = [doc] /\
    subscript doc "labels" = Ok (JArr (map JInt labels)) /\
    List.length labels = 4%nat.
Proof.
  assert (H : main no_flags (world_of (Ok four_points)) = (four_points_trace, Ok tt))
    by (vm_compute; reflexivity).
  assert (Hwf : well_formed_input four_points
                  [JStr "a"; JStr "b"; JStr "c"; JStr "d"]
                  [JArr [JInt 1; JInt 0]; JArr [JInt 1; JFloat 0.01%float];
                   JArr [JInt 0; JInt 1]; JArr [JInt 0; JFloat 1.01%float]])
    by (repeat split).
  split; [exact H |]. split; [exact Hwf |].
  exact (labels_length no_flags (world_of (Ok four_points)) four_points_trace
           four_points _ _ H eq_refl Hwf (halves_one_label_per_row _)).
Defined.

Lemma ids_echoed_witness :
  main no_flags (world_of (Ok four_points)) = (four_points_trace, Ok tt) /\
  exists data ids doc,
    stdin_json (world_of (Ok four_points)) = Ok data /\
    subscript data "ids" = Ok ids /\
    stdout_of four_points_trace = [doc] /\
    subscript doc "ids" = Ok ids.
Proof.
  assert (H : main no_flags (world_of (Ok four_points)) = (four_points_trace, Ok tt))
    by (vm_compute; reflexivity).
  split; [exact H |].
  exact (ids_echoed no_flags (world_of (Ok four_points)) four_points_trace H).
Defined.

Lemma single_document_last_witness :
  main no_flags (world_of (Ok four_points)) = (four_points_trace, Ok tt) /\
  exists before doc,
    four_points_trace = (before ++ [Stdout doc])%list /\
    stdout_of before = [] /\
    stdout_of four_points_trace = [doc] /\
    stderr_of four_points_trace = stderr_of before.
Proof.
  assert (H : main no_flags (world_of (Ok four_points)) = (four_points_trace, Ok tt))
    by (vm_compute; reflexivity).
  split; [exact H |].
  exact (single_document_last no_flags (world_of (Ok four_points)) four_points_trace H).
Defined.

(** C8 as stated fails: the run on the four points returns and has written
    six lines on standard error, neither three nor four. *)
Lemma progress_lines_counterexample :
  main no_flags (world_of (Ok four_points)) = (four_points_trace, Ok tt) /\
  stderr_of four_points_trace =
    ["Clustering 4 vectors with HDBSCAN..."; "  min_cluster_size=4"; "  min_samples=4";
     "  metric=euclidean"; "  core_dist_n_jobs=-1"; "Found 2 clusters, 0 noise points"] /\
  List.length (stderr_of four_points_trace) <> 3%nat /\
  List.length (stderr_of four_points_trace) <> 4%nat.
Proof.
  split; [vm_compute; reflexivity |].
  split; [vm_compute; reflexivity |].
  split; vm_compute; discriminate.
Qed.

Lemma six_progress_lines_witness :
  main no_flags (world_of (Ok four_points)) = (four_points_trace, Ok tt) /\
  exists n X labels top before after,
    four_points_trace =
      (before ++ Fit (config_of (parse_args no_flags)) X :: after)%list /\
    stderr_of before =
      ["Clustering " ++ str_of_int n ++ " vectors with HDBSCAN...";
       "  min_cluster_size=" ++ str_of_int (min_cluster_size (parse_args no_flags));
       "  min_samples=" ++ str_of_int (hp_min_samples (config_of (parse_args no_flags)));
       "  metric=" ++ metric (parse_args no_flags);
       "  core_dist_n_jobs=" ++ str_of_int (core_dist_n_jobs (parse_args no_flags))] /\
    stderr_of after = [summary_line labels top] /\
    fits_of before = [] /\ fits_of after = [] /\
    List.length (stderr_of four_points_trace) = 6%nat.
Proof.
  assert (H : main no_flags (world_of (Ok four_points)) = (four_points_trace, Ok tt))
    by (vm_compute; reflexivity).
  split; [exact H |].
  exact (six_progress_lines no_flags (world_of (Ok four_points)) four_points_trace H).
Defined.

Lemma min_samples_fallback_witness :
  In (config_of (parse_args manhattan_flags), Arr1 [])
     (fits_of (fst (main manhattan_flags (world_of (Ok empty_input))))) /\
  hp_min_samples (config_of (parse_args manhattan_flags)) = 5 /\
  hp_min_cluster_size (config_of (parse_args manhattan_flags)) =
  min_cluster_size (parse_args manhattan_flags) /\
  (opt_min_samples manhattan_flags = None ->
   hp_min_samples (config_of (parse_args manhattan_flags)) =
   min_cluster_size (parse_args manhattan_flags)) /\
  (opt_min_samples manhattan_flags = Some 0 ->
   hp_min_samples (config_of (parse_args manhattan_flags)) =
   min_cluster_size (parse_args manhattan_flags)) /\
  (forall v, opt_min_samples manhattan_flags = Some v -> v <> 0 ->
             hp_min_samples (config_of (parse_args manhattan_flags)) = v).
Proof.
  assert (H : In (config_of (parse_args manhattan_flags), Arr1 [])
                 (fits_of (fst (main manhattan_flags (world_of (Ok empty_input))))))
    by (vm_compute; left; reflexivity).
  split; [exact H |]. split; [reflexivity |].
  exact (min_samples_fallback manhattan_flags (world_of (Ok empty_input)) _ _ H).
Defined.

(** C5 as stated fails: with numpy missing, the run prints the dependency
    error on standard output although standard input holds no JSON. *)
Lemma malformed_json_counterexample :
  stdin_json no_numpy_bad_stdin = Raise JSONDecodeError /\
  stdout_of (fst (main no_flags no_numpy_bad_stdin)) =
    [dependency_error "No module named 'numpy'"] /\
  stdout_of (fst (main no_flags no_numpy_bad_stdin)) <> [].
Proof.
  split; [reflexivity |]. split; [vm_compute; reflexivity |].
  vm_compute. discriminate.
Qed.

Lemma malformed_json_faults_witness :
  stdin_json (world_of (Raise JSONDecodeError)) = Raise JSONDecodeError /\
  main no_flags (world_of (Raise JSONDecodeError)) = ([], Raise JSONDecodeError) /\
  exit_code (snd (main no_flags (world_of (Raise JSONDecodeError)))) <> 0 /\
  stdout_of (fst (main no_flags (world_of (Raise JSONDecodeError)))) = [].
Proof.
  split; [reflexivity |].
  exact (malformed_json_faults no_flags (world_of (Raise JSONDecodeError))
           eq_refl eq_refl eq_refl).
Defined.

(** C10 as stated fails: with the default metric the run on the empty input
    stops at the norm, before the clustering routine is called and before
    any maximum is taken, although the routine would return no label. *)
Lemma empty_input_counterexample :
  main no_flags (world_of (Ok empty_input)) = ([], Raise AxisError) /\
  fits_of (fst (main no_flags (world_of (Ok empty_input)))) = [] /\
  fit_predict (world_of (Ok empty_input)) (config_of (parse_args no_flags)) (Arr1 []) = Ok [] /\
  snd (main no_flags (world_of (Ok empty_input))) <> Raise ValueError.
Proof.
  split; [vm_compute; reflexivity |]. split; [vm_compute; reflexivity |].
  split; [reflexivity |]. vm_compute. discriminate.
Qed.

Lemma empty_input_faults_witness :
  subscript empty_input "ids" = Ok (JArr []) /\
  subscript empty_input "embeddings" = Ok (JArr []) /\
  (metric (parse_args manhattan_flags) = "euclidean" ->
   main manhattan_flags (world_of (Ok empty_input)) = ([], Raise AxisError)) /\
  (metric (parse_args manhattan_flags) <> "euclidean" ->
   fits_of (fst (main manhattan_flags (world_of (Ok empty_input)))) =
     [(config_of (parse_args manhattan_flags), Arr1 [])] /\
   (fit_predict (world_of (Ok empty_input)) (config_of (parse_args manhattan_flags))
      (Arr1 []) = Ok [] ->
    main manhattan_flags (world_of (Ok empty_input)) =
      ((prelude (parse_args manhattan_flags) 0 ++
        [Fit (config_of (parse_args manhattan_flags)) (Arr1 [])])%list,
       Raise ValueError)) /\
   (forall e,
      fit_predict (world_of (Ok empty_input)) (config_of (parse_args manhattan_flags))
        (Arr1 []) = Raise e ->
      main manhattan_flags (world_of (Ok empty_input)) =
        ((prelude (parse_args manhattan_flags) 0 ++
          [Fit (config_of (parse_args manhattan_flags)) (Arr1 [])])%list,
         Raise e))) /\
  (metric (parse_args manhattan_flags) = "euclidean" \/
   (forall labels,
      fit_predict (world_of (Ok empty_input)) (config_of (parse_args manhattan_flags))
        (Arr1 []) = Ok labels -> labels = []) ->
   stdout_of (fst (main manhattan_flags (world_of (Ok empty_input)))) = [] /\
   snd (main manhattan_flags (world_of (Ok empty_input))) <> Ok tt).
Proof.
  split; [reflexivity |]. split; [reflexivity |].
  exact (empty_input_faults manhattan_flags (world_of (Ok empty_input)) empty_input
           eq_refl eq_refl eq_refl eq_refl eq_refl).
Defined.

End Examples.

(** ** The further properties on concrete runs *)

Section FurtherExamples.
Import Binary64.

Lemma missing_key_faults_witness :
  main no_flags (world_of (Ok only_embeddings)) = ([], Raise (KeyError "ids")) /\
  main no_flags (world_of (Ok only_ids)) = ([], Raise (KeyError "embeddings")).
Proof.
  split.
  - apply (missing_key_faults no_flags (world_of (Ok only_embeddings)) _
             eq_refl eq_refl eq_refl).
    reflexivity.
  - apply (missing_key_faults no_flags (world_of (Ok only_ids)) _
             eq_refl eq_refl eq_refl).
    + discriminate.
    + reflexivity.
Defined.

Lemma non_object_document_faults_witness :
  main no_flags (world_of (Ok (JArr [JInt 1; JInt 2]))) = ([], Raise TypeError).
Proof.
  apply (non_object_document_faults no_flags (world_of (Ok (JArr [JInt 1; JInt 2])))
           (JArr [JInt 1; JInt 2])); try reflexivity.
  intros fields H. discriminate H.
Defined.

Lemma import_exception_propagates_witness :
  main no_flags broken_hdbscan = ([], Raise (OtherError "ValueError")).
Proof.
  apply (import_exception_propagates no_flags broken_hdbscan (OtherError "ValueError")).
  - right. split; reflexivity.
  - intros msg H. discriminate H.
Defined.

Lemma ids_without_length_faults_witness :
  py_len (JInt 3 : json float) = Raise TypeError /\
  fst (main no_flags (world_of (Ok ids_is_a_number))) = [] /\
  snd (main no_flags (world_of (Ok ids_is_a_number))) <> Ok tt /\
  (forall raw E X,
     subscript ids_is_a_number "embeddings" = Ok raw -> np_array raw = Ok E ->
     prepared (parse_args no_flags) E X ->
     TypeError = TypeError /\
     main no_flags (world_of (Ok ids_is_a_number)) = ([], Raise TypeError)).
Proof.
  split; [reflexivity |].
  exact (ids_without_length_faults no_flags (world_of (Ok ids_is_a_number))
           ids_is_a_number (JInt 3) TypeError eq_refl eq_refl eq_refl eq_refl eq_refl).
Defined.

Lemma options_passed_verbatim_witness :
  In (config_of (parse_args manhattan_flags), Arr1 [])
     (fits_of (fst (main manhattan_flags (world_of (Ok empty_input))))) /\
  hp_min_cluster_size (config_of (parse_args manhattan_flags)) = 5 /\
  hp_metric (config_of (parse_args manhattan_flags)) = "manhattan" /\
  hp_core_dist_n_jobs (config_of (parse_args manhattan_flags)) = 2.
Proof.
  assert (H : In (config_of (parse_args manhattan_flags), Arr1 [])
                 (fits_of (fst (main manhattan_flags (world_of (Ok empty_input))))))
    by (vm_compute; left; reflexivity).
  split; [exact H |].
  exact (options_passed_verbatim manhattan_flags (world_of (Ok empty_input)) _ _ H).
Defined.

Lemma min_samples_zero_only_by_cluster_size_witness :
  In (config_of (parse_args zero_cluster_size_flags), four_points_normalized)
     (fits_of (fst (main zero_cluster_size_flags (world_of (Ok four_points))))) /\
  hp_min_samples (config_of (parse_args zero_cluster_size_flags)) = 0 /\
  opt_min_cluster_size zero_cluster_size_flags = Some 0 /\
  (opt_min_samples zero_cluster_size_flags = None \/
   opt_min_samples zero_cluster_size_flags = Some 0).
Proof.
  assert (H : In (config_of (parse_args zero_cluster_size_flags), four_points_normalized)
                 (fits_of (fst (main zero_cluster_size_flags (world_of (Ok four_points))))))
    by (vm_compute; left; reflexivity).
  split; [exact H |]. split; [reflexivity |].
  exact (min_samples_zero_only_by_cluster_size zero_cluster_size_flags
           (world_of (Ok four_points)) _ _ H eq_refl).
Defined.

Lemma clusterer_failure_propagates_witness :
  snd (main no_flags (world_with failing (Ok four_points))) =
    Raise (OtherError "MemoryError") /\
  stdout_of (fst (main no_flags (world_with failing (Ok four_points)))) = [] /\
  List.length (stderr_of (fst (main no_flags (world_with failing (Ok four_points))))) = 5%nat /\
  fits_of (fst (main no_flags (world_with failing (Ok four_points)))) =
    [(config_of (parse_args no_flags), four_points_normalized)].
Proof.
  apply (clusterer_failure_propagates no_flags (world_with failing (Ok four_points))
           (config_of (parse_args no_flags)) four_points_normalized
           (OtherError "MemoryError")).
  - vm_compute. left. reflexivity.
  - reflexivity.
Defined.

Lemma empty_labels_fault_witness :
  snd (main no_flags (world_with silent (Ok four_points))) = Raise ValueError /\
  stdout_of (fst (main no_flags (world_with silent (Ok four_points)))) = [] /\
  List.length (stderr_of (fst (main no_flags (world_with silent (Ok four_points))))) = 5%nat.
Proof.
  apply (empty_labels_fault no_flags (world_with silent (Ok four_points))
           (config_of (parse_args no_flags)) four_points_normalized).
  - vm_compute. left. reflexivity.
  - reflexivity.
Defined.

Lemma normalization_keeps_shape_witness :
  exists data raw E,
    stdin_json (world_of (Ok four_points)) = Ok data /\
    subscript data "embeddings" = Ok raw /\
    np_array raw = Ok E /\
    forall rows, E = Arr2 rows ->
      exists rows', four_points_normalized = Arr2 rows' /\
        List.length rows' = List.length rows /\
        row_lengths rows' = row_lengths rows.
Proof.
  apply (normalization_keeps_shape no_flags (world_of (Ok four_points))
           (config_of (parse_args no_flags)) four_points_normalized).
  vm_compute. left. reflexivity.
Defined.

Lemma record_invariants_witness :
  exists doc labels n_clusters n_noise,
    stdout_of (fst (main no_flags (world_with all_noise (Ok four_points)))) = [doc] /\
    subscript doc "labels" = Ok (JArr (map JInt labels)) /\
    subscript doc "n_clusters" = Ok (JInt n_clusters) /\
    subscript doc "n_noise" = Ok (JInt n_noise) /\
    labels <> [] /\
    0 <= n_noise <= Z.of_nat (List.length labels) /\
    - 2 ^ 63 <= n_clusters < 2 ^ 63 /\
    ((forall l, In l labels -> l < 2 ^ 63 - 1) ->
     0 <= n_clusters /\
     (forall l, In l labels -> l < n_clusters) /\
     (n_clusters = 0 <-> forall l, In l labels -> l < 0)).
Proof.
  apply (record_invariants no_flags (world_with all_noise (Ok four_points))).
  vm_compute. reflexivity.
Defined.

Lemma summary_reports_the_record_witness :
  exists labels ids n_clusters n_noise,
    stdout_of four_points_trace =
      [JObj [("labels", labels); ("ids", ids);
             ("n_clusters", JInt n_clusters); ("n_noise", JInt n_noise)]] /\
    List.last (stderr_of four_points_trace) "" =
      "Found " ++ str_of_int n_clusters ++ " clusters, "
      ++ str_of_int n_noise ++ " noise points".
Proof.
  apply (summary_reports_the_record no_flags (world_of (Ok four_points))).
  vm_compute. reflexivity.
Defined.

Lemma vector_count_is_len_ids_witness :
  stderr_of (fst (main no_flags (world_with failing (Ok string_ids_three_rows)))) <> [] /\
  List.hd "" (stderr_of (fst (main no_flags (world_with failing (Ok string_ids_three_rows)))))
    = "Clustering 1 vectors with HDBSCAN..." /\
  exists data ids n,
    stdin_json (world_with failing (Ok string_ids_three_rows)) = Ok data /\
    subscript data "ids" = Ok ids /\
    py_len ids = Ok n /\
    List.hd "" (stderr_of (fst (main no_flags (world_with failing (Ok string_ids_three_rows)))))
      = "Clustering " ++ str_of_int n ++ " vectors with HDBSCAN..." /\
    (forall items, ids = JArr items -> n = Z.of_nat (List.length items)) /\
    (forall fields, ids = JObj fields -> n = Z.of_nat (List.length fields)) /\
    (forall s, ids = JStr s -> n = Z.of_nat (utf8_length s)).
Proof.
  assert (H : stderr_of (fst (main no_flags (world_with failing (Ok string_ids_three_rows))))
              <> []) by (vm_compute; discriminate).
  split; [exact H |]. split; [vm_compute; reflexivity |].
  exact (vector_count_is_len_ids no_flags (world_with failing (Ok string_ids_three_rows)) H).
Defined.

Lemma ids_do_not_influence_clustering_witness :
  fits_of (fst (main no_flags (with_stdin (world_of (Ok empty_input))
                                 (Ok two_ids_three_rows)))) =
  fits_of (fst (main no_flags (with_stdin (world_of (Ok empty_input))
                                 (Ok other_ids_three_rows)))) /\
  snd (main no_flags (with_stdin (world_of (Ok empty_input)) (Ok two_ids_three_rows))) =
  snd (main no_flags (with_stdin (world_of (Ok empty_input)) (Ok other_ids_three_rows))) /\
  (snd (main no_flags (with_stdin (world_of (Ok empty_input)) (Ok two_ids_three_rows)))
   = Ok tt ->
   exists doc1 doc2,
     stdout_of (fst (main no_flags (with_stdin (world_of (Ok empty_input))
                                      (Ok two_ids_three_rows)))) = [doc1] /\
     stdout_of (fst (main no_flags (with_stdin (world_of (Ok empty_input))
                                      (Ok other_ids_three_rows)))) = [doc2] /\
     subscript doc2 "labels" = subscript doc1 "labels" /\
     subscript doc2 "n_clusters" = subscript doc1 "n_clusters" /\
     subscript doc2 "n_noise" = subscript doc1 "n_noise" /\
     subscript doc1 "ids" = Ok (JArr [JInt 7; JInt 8]) /\
     subscript doc2 "ids" = Ok (JStr "pqr")).
Proof.
  apply (ids_do_not_influence_clustering no_flags (world_of (Ok empty_input))
           two_ids_three_rows other_ids_three_rows
           (JArr [JInt 7; JInt 8]) (JStr "pqr")
           (JArr [JArr [JInt 3; JInt 4]; JArr [JInt 0; JInt 0];
                  JArr [JFloat 0.25%float; JInt 0]]) 2 3);
    reflexivity.
Defined.

Lemma well_formed_input_is_reported_witness :
  exists t top,
    main no_flags (world_of (Ok four_points)) = (t, Ok tt) /\
    exit_code (snd (main no_flags (world_of (Ok four_points)))) = 0 /\
    stdout_of t =
      [output_record (JArr [JStr "a"; JStr "b"; JStr "c"; JStr "d"]) [0; 0; 1; 1] top] /\
    List.length [0; 0; 1; 1] = List.length [JStr "a"; JStr "b"; JStr "c"; JStr "d" : json float].
Proof.
  apply (well_formed_input_is_reported no_flags (world_of (Ok four_points)) four_points
           [JStr "a"; JStr "b"; JStr "c"; JStr "d"]
           [JArr [JInt 1; JInt 0]; JArr [JInt 1; JFloat 0.01%float];
            JArr [JInt 0; JInt 1]; JArr [JInt 0; JFloat 1.01%float]]
           four_points_array four_points_normalized [0; 0; 1; 1]);
    try reflexivity.
  - repeat split.
  - discriminate.
  - apply halves_one_label_per_row.
Defined.

End FurtherExamples.
